(** * Serial communication core of the Bifrost robot-arm controller

    A shallow embedding of [serial_thread.py], [serial_response_router.py]
    and [connection_manager.py], followed by the properties of the
    polling state machine, the response router and the connection
    life cycle.

    Conventions of the embedding.
    - Commands and received lines are ASCII texts ([string]); decoding
      with [errors='replace'] is the identity on them.
    - Wall-clock readings ([time.time()]) are rationals, in seconds.
    - Signals emitted and calls made on collaborators are recorded, in
      order, in a trace.
    - [config], [serial_manager] and [parsing_patterns] are not part of
      the sources at hand: the constants are fields of a record that is
      passed around, the command channel follows its description in the
      specification, and the three line recognisers are parameters. *)

From Stdlib Require Import Bool List String Ascii ZArith QArith Lia Lqa.
From Stdlib Require DecimalString.
Import ListNotations.
Open Scope string_scope.

(* ================================================================== *)
(** * Text helpers: the fragments of [str] the code relies on          *)
(* ================================================================== *)

Module Text.

(** [str.isspace] on the ASCII range: TAB, LF, VT, FF, CR, the four
    separators 0x1c-0x1f and the blank. *)
Definition is_space (c : ascii) : bool :=
  let n := nat_of_ascii c in
  ((9 <=? n) && (n <=? 13) || (28 <=? n) && (n <=? 32))%nat.

Definition upper_char (c : ascii) : ascii :=
  let n := nat_of_ascii c in
  if ((97 <=? n) && (n <=? 122))%nat then ascii_of_nat (n - 32) else c.

Definition lower_char (c : ascii) : ascii :=
  let n := nat_of_ascii c in
  if ((65 <=? n) && (n <=? 90))%nat then ascii_of_nat (n + 32) else c.

Fixpoint map_string (f : ascii -> ascii) (s : string) : string :=
  match s with
  | EmptyString => EmptyString
  | String c r => String (f c) (map_string f r)
  end.

(** [s.upper()] and [s.lower()] *)
Definition upper : string -> string := map_string upper_char.
Definition lower : string -> string := map_string lower_char.

Fixpoint lstrip (s : string) : string :=
  match s with
  | EmptyString => EmptyString
  | String c r => if is_space c then lstrip r else s
  end.

Fixpoint rstrip (s : string) : string :=
  match s with
  | EmptyString => EmptyString
  | String c r =>
      match rstrip r with
      | EmptyString => if is_space c then EmptyString else String c EmptyString
      | r' => String c r'
      end
  end.

(** [s.strip()] *)
Definition strip (s : string) : string := rstrip (lstrip s).

(** [s.startswith(p)] *)
Definition startswith (s p : string) : bool := String.prefix p s.

(** [sub in s] *)
Fixpoint contains (sub s : string) : bool :=
  String.prefix sub s ||
  match s with
  | EmptyString => false
  | String _ r => contains sub r
  end.

(** Truth value of a [str] or [bytes] object. *)
Definition truthy (s : string) : bool :=
  match s with EmptyString => false | _ => true end.

End Text.

(* ================================================================== *)
(** * Configuration constants ([config])                               *)
(* ================================================================== *)

Record Config : Type := mkConfig {
  SERIAL_THREAD_SLEEP : Q;
  SERIAL_STATUS_REQUEST_INTERVAL : Q;
  SERIAL_ENDSTOP_REQUEST_INTERVAL : Q;
  BLOCKING_COMMAND_MIN_PAUSE : Q;
  BLOCKING_COMMAND_MAX_PAUSE : Q;
  SERIAL_TIMEOUT : Q;
  SERIAL_THREAD_SHUTDOWN_TIMEOUT : Q
}.

(** Comparisons of clock readings, as booleans. *)
Definition Qge_bool (a b : Q) : bool := Qle_bool b a.
Definition Qgt_bool (a b : Q) : bool := negb (Qle_bool a b).
Definition Qlt_bool (a b : Q) : bool := negb (Qle_bool b a).

(* ================================================================== *)
(** * The command channel ([serial_manager])                           *)
(* ================================================================== *)

Module Channel.

(** Modelled from the spec: [serial_manager.py] is missing.  The command
    channel is a queue with a priority lane drained ahead of a normal
    lane; [write] enqueues on one of the two lanes, [get_next_command]
    dequeues at most one command, priority lane first.  The handle
    reports whether it is open. *)
Record SerialManager : Type := mkSerialManager {
  handle_open : bool;
  priority_lane : list string;
  normal_lane : list string;
  port : option string;
  baudrate : option Z;
  timeout : option Q
}.

Definition isOpen (m : SerialManager) : bool := handle_open m.

Definition set_lanes (p n : list string) (m : SerialManager) : SerialManager :=
  mkSerialManager (handle_open m) p n (port m) (baudrate m) (timeout m).

Definition set_open (b : bool) (m : SerialManager) : SerialManager :=
  mkSerialManager b (priority_lane m) (normal_lane m)
    (port m) (baudrate m) (timeout m).


Definition write (data : string) (priority : bool) (m : SerialManager)
  : SerialManager :=
  if priority
  then set_lanes (priority_lane m ++ [data]) (normal_lane m) m
  else set_lanes (priority_lane m) (normal_lane m ++ [data]) m.

Definition get_next_command (m : SerialManager)
  : option string * SerialManager :=
  match priority_lane m with
  | c :: rest => (Some c, set_lanes rest (normal_lane m) m)
  | [] =>
      match normal_lane m with
      | c :: rest => (Some c, set_lanes [] rest m)
      | [] => (None, m)
      end
  end.

(** A closed handle with both lanes empty. *)
Definition fresh : SerialManager :=
  mkSerialManager false [] [] None None None.

End Channel.

(** The two status requests. *)
Definition M114 : string := String "M" (String "1" (String "1" (String "4"
  (String (ascii_of_nat 10) EmptyString)))).
Definition M119 : string := String "M" (String "1" (String "1" (String "9"
  (String (ascii_of_nat 10) EmptyString)))).

(* ================================================================== *)
(** * The I/O loop ([serial_thread.py])                                *)
(* ================================================================== *)

Module SerialThread.
Import Text Channel.

(** What the loop does to the outside world, in order. *)
Inductive io_event : Type :=
| SignalEmit (data : string)          (* serialSignal.emit(data) *)
| CallInWaiting                       (* serial_manager.inWaiting() *)
| CallWriteInternal (cmd : string)    (* serial_manager._write_internal(cmd) *)
| CallReadline.                       (* serial_manager.readline() *)

(** Outcome of a call on the handle: a value, or [OSError] /
    [serial.SerialException]. *)
Inductive io_result (A : Type) : Type :=
| Returned (a : A)
| Raised.
Arguments Returned {A} a.
Arguments Raised {A}.

(** The attributes set by [__init__], and the channel the thread owns. *)
Record State : Type := mkState {
  running : bool;
  elapsed_time : Q;
  endstop_check_time : Q;
  status_polling_paused : bool;
  blocking_command_start_time : Q;
  serial_manager : SerialManager;
  trace : list io_event
}.

(** [SerialThread.__init__], called at clock reading [now]. *)
Definition init (mgr : SerialManager) (now : Q) : State :=
  mkState true now now false 0 mgr [].

Definition DISCONNECTED : string := "SERIAL-DISCONNECTED".

Definition BLOCKING_COMMANDS : list string := ["G28"; "G29"; "M999"].

Definition log (e : io_event) (s : State) : State :=
  mkState (running s) (elapsed_time s) (endstop_check_time s)
    (status_polling_paused s) (blocking_command_start_time s)
    (serial_manager s) (trace s ++ [e]).

Definition set_running (b : bool) (s : State) : State :=
  mkState b (elapsed_time s) (endstop_check_time s)
    (status_polling_paused s) (blocking_command_start_time s)
    (serial_manager s) (trace s).

Definition set_paused (b : bool) (s : State) : State :=
  mkState (running s) (elapsed_time s) (endstop_check_time s)
    b (blocking_command_start_time s) (serial_manager s) (trace s).

Definition set_start_time (t : Q) (s : State) : State :=
  mkState (running s) (elapsed_time s) (endstop_check_time s)
    (status_polling_paused s) t (serial_manager s) (trace s).

Definition set_elapsed_time (t : Q) (s : State) : State :=
  mkState (running s) t (endstop_check_time s)
    (status_polling_paused s) (blocking_command_start_time s)
    (serial_manager s) (trace s).

Definition set_endstop_check_time (t : Q) (s : State) : State :=
  mkState (running s) (elapsed_time s) t
    (status_polling_paused s) (blocking_command_start_time s)
    (serial_manager s) (trace s).

Definition set_manager (m : SerialManager) (s : State) : State :=
  mkState (running s) (elapsed_time s) (endstop_check_time s)
    (status_polling_paused s) (blocking_command_start_time s)
    m (trace s).

(** [self.serial_manager.write(data, priority=True)] *)
Definition enqueue_priority (data : string) (s : State) : State :=
  set_manager (write data true (serial_manager s)) s.

(** [stop] *)
Definition stop (s : State) : State := set_running false s.

(** The test of the [for block_cmd in BLOCKING_COMMANDS] loop. *)
Definition is_blocking (command_str : string) : bool :=
  existsb (startswith command_str) BLOCKING_COMMANDS.

(** [_request_immediate_status] *)
Definition _request_immediate_status (s : State) : State :=
  enqueue_priority M119 (enqueue_priority M114 s).

(** [_process_command_queue]; [write_ok] is what [_write_internal]
    returns if it is called. *)
Definition _process_command_queue (write_ok : bool) (current_time : Q)
  (s : State) : State :=
  let (command, mgr) := get_next_command (serial_manager s) in
  let s := set_manager mgr s in
  match command with
  | None => s
  | Some command =>
      if truthy command then
        let s := log (CallWriteInternal command) s in
        if negb write_ok then
          set_running false (log (SignalEmit DISCONNECTED) s)
        else
          let command_str := upper (strip command) in
          if is_blocking command_str
          then set_start_time current_time (set_paused true s)
          else s
      else s
  end.

(** [_check_polling_timeout] *)
Definition _check_polling_timeout (cfg : Config) (current_time : Q)
  (s : State) : State :=
  if status_polling_paused s then
    let time_paused := current_time - blocking_command_start_time s in
    if Qge_bool time_paused (BLOCKING_COMMAND_MAX_PAUSE cfg)
    then _request_immediate_status (set_paused false s)
    else s
  else s.

(** [_send_status_requests] *)
Definition _send_status_requests (cfg : Config) (current_time : Q)
  (s : State) : State :=
  if status_polling_paused s then s
  else
    let s :=
      if Qgt_bool (current_time - elapsed_time s)
                  (SERIAL_STATUS_REQUEST_INTERVAL cfg)
      then enqueue_priority M114 (set_elapsed_time current_time s)
      else s in
    if Qgt_bool (current_time - endstop_check_time s)
                (SERIAL_ENDSTOP_REQUEST_INTERVAL cfg)
    then enqueue_priority M119 (set_endstop_check_time current_time s)
    else s.

(** [_check_blocking_command_complete] *)
Definition _check_blocking_command_complete (cfg : Config) (data : string)
  (current_time : Q) (s : State) : State :=
  if negb (status_polling_paused s) then s
  else if negb (contains "ok" (lower data)) then s
  else
    let time_elapsed := current_time - blocking_command_start_time s in
    if Qge_bool time_elapsed (BLOCKING_COMMAND_MIN_PAUSE cfg)
    then _request_immediate_status (set_paused false s)
    else s.

(** One turn of the [for] loop of [_read_serial_data]: what the handle
    answers to [inWaiting()] and then to [readline()]. *)
Record rx_step : Type := mkRx {
  rx_waiting : io_result Z;
  rx_line : io_result string
}.

(** The [except (OSError, serial.SerialException)] clause of
    [_read_serial_data]. *)
Definition read_failed (s : State) : State :=
  set_running false (log (SignalEmit DISCONNECTED) s).

(** The [for _ in range(estimated_lines)] loop; the handle answers with
    the steps of [rx], and with "nothing waiting" once they are used up. *)
Fixpoint read_lines (cfg : Config) (estimated_lines : nat)
  (rx : list rx_step) (current_time : Q) (s : State) : State :=
  match estimated_lines with
  | O => s
  | S n =>
      match rx with
      | [] => log CallInWaiting s
      | step :: rx' =>
          let s := log CallInWaiting s in
          match rx_waiting step with
          | Raised => read_failed s
          | Returned w =>
              if (w =? 0)%Z then s
              else
                let s := log CallReadline s in
                match rx_line step with
                | Raised => read_failed s
                | Returned data_bytes =>
                    let s :=
                      if truthy data_bytes then
                        let data_str := strip data_bytes in
                        if truthy data_str then
                          _check_blocking_command_complete cfg data_str
                            current_time (log (SignalEmit data_str) s)
                        else s
                      else s in
                    read_lines cfg n rx' current_time s
                end
          end
      end
  end.

(** [max(1, min(10, bytes_available // 30))] *)
Definition estimated_lines (bytes_available : Z) : nat :=
  Z.to_nat (Z.max 1 (Z.min 10 (bytes_available / 30))).

(** [_read_serial_data] *)
Definition _read_serial_data (cfg : Config) (bytes_available : Z)
  (rx : list rx_step) (current_time : Q) (s : State) : State :=
  if (bytes_available =? 0)%Z then s
  else read_lines cfg (estimated_lines bytes_available) rx current_time s.

(** What the outside world answers during one iteration of [run]. *)
Record iteration : Type := mkIteration {
  it_open : bool;                    (* serial_manager.isOpen() *)
  it_probe : io_result Z;            (* the first inWaiting() *)
  it_now : Q;                        (* time.time() *)
  it_write_ok : bool;                (* _write_internal(...) *)
  it_rx : list rx_step               (* the reads of _read_serial_data *)
}.

(** The body of the [while self.running] loop.  The second component is
    [true] when the body leaves the loop with [break]. *)
Definition run_body (cfg : Config) (it : iteration) (s : State)
  : State * bool :=
  if negb (it_open it) then (s, false)
  else
    let s := log CallInWaiting s in
    match it_probe it with
    | Raised => (log (SignalEmit DISCONNECTED) s, true)
    | Returned bytes_available =>
        let current_time := it_now it in
        let s := _process_command_queue (it_write_ok it) current_time s in
        let s := _check_polling_timeout cfg current_time s in
        let s := _send_status_requests cfg current_time s in
        let s := _read_serial_data cfg bytes_available (it_rx it)
                   current_time s in
        (s, false)
    end.

(** [run]: the loop, driven by the answers of the outside world, one
    record per iteration. *)
Fixpoint run (cfg : Config) (its : list iteration) (s : State) : State :=
  match its with
  | [] => s
  | it :: its' =>
      if running s then
        let (s', broke) := run_body cfg it s in
        if broke then s' else run cfg its' s'
      else s
  end.

End SerialThread.

(* ================================================================== *)
(** * The response router ([serial_response_router.py])                *)
(* ================================================================== *)

(** The recognisers of [parsing_patterns], which the router imports. *)
Record ParsingPatterns : Type := mkPatterns {
  is_m114_response : string -> bool;
  is_m119_response : string -> bool;
  is_ok_response : string -> bool
}.

Module Router.

Inductive ResponseType : Type :=
| POSITION | ENDSTOP | OK | DISCONNECT | OTHER.

Definition ResponseType_eqb (a b : ResponseType) : bool :=
  match a, b with
  | POSITION, POSITION | ENDSTOP, ENDSTOP | OK, OK
  | DISCONNECT, DISCONNECT | OTHER, OTHER => true
  | _, _ => false
  end.

(** [data] is [None] or the dictionary [{'sync_triggered': b}]. *)
Record RoutingResult : Type := mkResult {
  response_type : ResponseType;
  handled : bool;
  show_in_console : bool;
  data : option bool
}.

(** Calls made on the collaborators. *)
Inductive call : Type :=
| position_handler (data : string)
| endstop_handler (data : string)
| disconnect_handler
| get_is_homing
| set_homing_complete
| request_position_update
| set_sync_pending
| trigger_sync.

Definition call_eqb (a b : call) : bool :=
  match a, b with
  | position_handler x, position_handler y => String.eqb x y
  | endstop_handler x, endstop_handler y => String.eqb x y
  | disconnect_handler, disconnect_handler
  | get_is_homing, get_is_homing
  | set_homing_complete, set_homing_complete
  | request_position_update, request_position_update
  | set_sync_pending, set_sync_pending
  | trigger_sync, trigger_sync => true
  | _, _ => false
  end.

(** How many times a call occurs in a trace. *)
Definition invocations (c : call) (tr : list call) : nat :=
  List.length (filter (call_eqb c) tr).

(** The router: which of the optional callbacks were given to
    [__init__], and the manual-command window. *)
Record SerialResponseRouter : Type := mkRouter {
  has_position_handler : bool;
  has_endstop_handler : bool;
  has_disconnect_handler : bool;
  has_get_is_homing : bool;
  has_set_homing_complete : bool;
  has_request_position_update : bool;
  has_set_sync_pending : bool;
  has_trigger_sync : bool;
  _last_manual_command_time : Q;
  _manual_command_display_duration : Q
}.

(** [__init__]: the window starts at 0.0 and lasts 2.0 seconds. *)
Definition init (ph eh dh gh sh rp sp ts : bool) : SerialResponseRouter :=
  mkRouter ph eh dh gh sh rp sp ts 0 2.

Definition DISCONNECT_MARKER : string := "SERIAL-DISCONNECTED".

(** [if cb: cb()] *)
Definition invoke (registered : bool) (c : call) : list call :=
  if registered then [c] else [].

Section WithPatterns.
Variable pp : ParsingPatterns.

(** [identify_response_type] *)
Definition identify_response_type (data : string) : ResponseType :=
  if String.eqb data DISCONNECT_MARKER then DISCONNECT
  else if is_m114_response pp data then POSITION
  else if is_m119_response pp data then ENDSTOP
  else if is_ok_response pp data then OK
  else OTHER.

(** [_handle_disconnect] *)
Definition _handle_disconnect (r : SerialResponseRouter)
  : RoutingResult * list call :=
  (mkResult DISCONNECT true false None,
   invoke (has_disconnect_handler r) disconnect_handler).

(** [_handle_endstop] *)
Definition _handle_endstop (r : SerialResponseRouter) (data : string)
  : RoutingResult * list call :=
  (mkResult ENDSTOP true false None,
   invoke (has_endstop_handler r) (endstop_handler data)).

(** [_handle_position] *)
Definition _handle_position (r : SerialResponseRouter) (data : string)
  (verbose_show sync_pending : bool) : RoutingResult * list call :=
  (mkResult POSITION true verbose_show (Some sync_pending),
   (invoke (has_position_handler r) (position_handler data)
    ++ invoke (sync_pending && has_trigger_sync r) trigger_sync)%list).

(** [_check_homing_completion]; [homing] is what the collaborator's
    [get_is_homing()] answers when it is asked. *)
Definition _check_homing_completion (r : SerialResponseRouter)
  (homing : bool) : list call :=
  let is_homing := if has_get_is_homing r then homing else false in
  (invoke (has_get_is_homing r) get_is_homing ++
   if is_homing then
     invoke (has_set_homing_complete r) set_homing_complete
     ++ invoke (has_request_position_update r) request_position_update
     ++ invoke (has_set_sync_pending r) set_sync_pending
   else [])%list.

(** [route_response]; [now] is the reading of [time.time()]. *)
Definition route_response (r : SerialResponseRouter) (now : Q)
  (homing : bool) (data : string) (verbose_show ok_show sync_pending : bool)
  : RoutingResult * list call :=
  let response_type := identify_response_type data in
  if ResponseType_eqb response_type DISCONNECT then _handle_disconnect r
  else
    let calls :=
      if ResponseType_eqb response_type OK
      then _check_homing_completion r homing else [] in
    let time_since_manual := now - _last_manual_command_time r in
    if Qlt_bool time_since_manual (_manual_command_display_duration r) then
      (mkResult response_type false true None, calls)
    else if ResponseType_eqb response_type ENDSTOP then
      let (res, cs) := _handle_endstop r data in (res, (calls ++ cs)%list)
    else if ResponseType_eqb response_type POSITION then
      let (res, cs) := _handle_position r data verbose_show sync_pending in
      (res, (calls ++ cs)%list)
    else if ResponseType_eqb response_type OK then
      (mkResult response_type true ok_show None, calls)
    else
      (mkResult OTHER false true None, calls).

End WithPatterns.

(** [mark_manual_command_sent], at clock reading [now]. *)
Definition mark_manual_command_sent (now : Q) (r : SerialResponseRouter)
  : SerialResponseRouter :=
  mkRouter (has_position_handler r) (has_endstop_handler r)
    (has_disconnect_handler r) (has_get_is_homing r)
    (has_set_homing_complete r) (has_request_position_update r)
    (has_set_sync_pending r) (has_trigger_sync r)
    now (_manual_command_display_duration r).

End Router.

(* ================================================================== *)
(** * Exceptions and [int(str)]                                        *)
(* ================================================================== *)

(** An exception: its class and [str(e)]. *)
Record exn : Type := mkExn {
  exn_class : string;
  exn_message : string
}.

Module PyInt.

(** [Py_ISSPACE]: the white space [int] skips around an ASCII literal,
    that is TAB, LF, VT, FF, CR and the blank.  (Unlike [str.strip], it
    does not skip the separators 0x1c-0x1f.) *)
Definition is_c_space (c : ascii) : bool :=
  let n := nat_of_ascii c in
  ((9 <=? n) && (n <=? 13) || (n =? 32))%nat.

Fixpoint skip_spaces (s : string) : string :=
  match s with
  | EmptyString => EmptyString
  | String c r => if is_c_space c then skip_spaces r else s
  end.

Definition is_digit (c : ascii) : bool :=
  let n := nat_of_ascii c in ((48 <=? n) && (n <=? 57))%nat.

Definition digit_value (c : ascii) : Z := Z.of_nat (nat_of_ascii c - 48).

Definition is_underscore (c : ascii) : bool := Ascii.eqb c "_".

(** The scan of the digits, read from the left: digits, with single
    underscores between two digits.  It stops at the first character
    that is neither, and gives the value, the number of digits and what
    is left; an underscore that no digit follows is an error. *)
Fixpoint scan_digits (s : string) (acc : Z) (count : nat)
  : option (Z * nat * string) :=
  match s with
  | EmptyString => Some (acc, count, EmptyString)
  | String c r =>
      if is_digit c then scan_digits r (10 * acc + digit_value c) (S count)
      else if is_underscore c then
        match r with
        | String d _ => if is_digit d then scan_digits r acc count else None
        | EmptyString => None
        end
      else Some (acc, count, s)
  end.

(** The sign, if any, and what follows it. *)
Definition read_sign (s : string) : bool * string :=
  match s with
  | String "+" r => (false, r)
  | String "-" r => (true, r)
  | _ => (false, s)
  end.

Definition hex_digit (n : nat) : ascii :=
  if (n <? 10)%nat then ascii_of_nat (48 + n) else ascii_of_nat (87 + n).

Definition double_quote : ascii := ascii_of_nat 34.
Definition single_quote : ascii := ascii_of_nat 39.
Definition backslash : ascii := ascii_of_nat 92.

Fixpoint has_char (c : ascii) (s : string) : bool :=
  match s with
  | EmptyString => false
  | String d r => Ascii.eqb c d || has_char c r
  end.

(** One character of [repr(s)], [quote] being the quote chosen. *)
Definition escape_char (quote c : ascii) : string :=
  let n := nat_of_ascii c in
  if Ascii.eqb c quote || Ascii.eqb c backslash
  then String backslash (String c EmptyString)
  else if (n =? 9)%nat then String backslash "t"
  else if (n =? 10)%nat then String backslash "n"
  else if (n =? 13)%nat then String backslash "r"
  else if ((n <? 32) || (127 <=? n))%nat
  then String backslash
         (String "x" (String (hex_digit (n / 16))
                        (String (hex_digit (n mod 16)) EmptyString)))
  else String c EmptyString.

Fixpoint escape (quote : ascii) (s : string) : string :=
  match s with
  | EmptyString => EmptyString
  | String c r => escape_char quote c ++ escape quote r
  end.

(** [repr(s)] of an ASCII text: between double quotes when the text has
    a single quote and no double quote, between single quotes otherwise;
    the quote, the backslash and the control characters escaped. *)
Definition repr (s : string) : string :=
  let quote :=
    if has_char single_quote s && negb (has_char double_quote s)
    then double_quote else single_quote in
  String quote (escape quote s ++ String quote EmptyString).

Definition decimal (n : nat) : string :=
  DecimalString.NilEmpty.string_of_uint (Nat.to_uint n).

(** CPython's default [sys.int_info.default_max_str_digits]. *)
Definition max_str_digits : nat := 4300.

(** The [ValueError] of a text that is no literal; the format is
    [%.200R], the first 200 characters of [repr(s)]. *)
Definition invalid_literal (s : string) : exn :=
  mkExn "ValueError"
    ("invalid literal for int() with base 10: "
     ++ String.substring 0 200 (repr s)).

Definition too_many_digits (n : nat) : exn :=
  mkExn "ValueError"
    ("Exceeds the limit (4300 digits) for integer string conversion: value has "
     ++ decimal n
     ++ " digits; use sys.set_int_max_str_digits() to increase the limit").

(** [int(s)] for an ASCII text, as CPython reads it: white space is
    skipped, then a sign; the digits must start at once and have single
    underscores between them at most; more digits than the interpreter
    converts are refused; after the digits only white space may come. *)
Definition int (s : string) : exn + Z :=
  let (negative, body) := read_sign (skip_spaces s) in
  match body with
  | String c _ =>
      if is_digit c then
        match scan_digits body 0 0 with
        | Some (v, n, rest) =>
            if (max_str_digits <? n)%nat then inl (too_many_digits n)
            else
              match skip_spaces rest with
              | EmptyString => inr (if negative then (- v)%Z else v)
              | _ => inl (invalid_literal s)
              end
        | None => inl (invalid_literal s)
        end
      else inl (invalid_literal s)
  | EmptyString => inl (invalid_literal s)
  end.

End PyInt.

(* ================================================================== *)
(** * The connection manager ([connection_manager.py])                 *)
(* ================================================================== *)

Module ConnectionManager.
Import Channel.

Inductive ConnectionState : Type :=
| DISCONNECTED | CONNECTING | CONNECTED | ERROR.

Definition ConnectionState_eqb (a b : ConnectionState) : bool :=
  match a, b with
  | DISCONNECTED, DISCONNECTED | CONNECTING, CONNECTING
  | CONNECTED, CONNECTED | ERROR, ERROR => true
  | _, _ => false
  end.

(** The Qt signals of the manager. *)
Inductive signal : Type :=
| state_changed (s : ConnectionState)
| connected (port baudrate : string)
| disconnected
| error (message : string).

(** What [set_serial_thread_class] can be given: the [SerialThread] of
    [serial_thread.py], whose [__init__(self, serial_manager, parent=None)]
    has no [gui_instance] parameter, or some other class, whose instances
    may or may not have an [isRunning] attribute. *)
Inductive ThreadClass : Type :=
| SerialThread_class
| Other_class (instances_have_isRunning : bool).

(** A thread object, as far as [hasattr(thread, 'isRunning')] goes. *)
Record ThreadObject : Type := mkThread {
  has_isRunning : bool
}.

Record Manager : Type := mkManager {
  serial_manager : SerialManager;
  _state : ConnectionState;
  _current_port : option string;
  _current_baudrate : option string;
  _serial_thread : option ThreadObject;
  _serial_thread_class : option ThreadClass;
  signals : list signal
}.

(** [__init__] *)
Definition init (sm : SerialManager) : Manager :=
  mkManager sm DISCONNECTED None None None None [].

Definition emit (sg : signal) (m : Manager) : Manager :=
  mkManager (serial_manager m) (_state m) (_current_port m)
    (_current_baudrate m) (_serial_thread m) (_serial_thread_class m)
    (signals m ++ [sg]).

Definition update_serial_manager (f : SerialManager -> SerialManager)
  (m : Manager) : Manager :=
  mkManager (f (serial_manager m)) (_state m) (_current_port m)
    (_current_baudrate m) (_serial_thread m) (_serial_thread_class m)
    (signals m).

Definition set_thread (t : option ThreadObject) (m : Manager) : Manager :=
  mkManager (serial_manager m) (_state m) (_current_port m)
    (_current_baudrate m) t (_serial_thread_class m) (signals m).

Definition set_current (p b : option string) (m : Manager) : Manager :=
  mkManager (serial_manager m) (_state m) p b
    (_serial_thread m) (_serial_thread_class m) (signals m).

(** [set_serial_thread_class] *)
Definition set_serial_thread_class (c : ThreadClass) (m : Manager) : Manager :=
  mkManager (serial_manager m) (_state m) (_current_port m)
    (_current_baudrate m) (_serial_thread m) (Some c) (signals m).

(** [_set_state] *)
Definition _set_state (s : ConnectionState) (m : Manager) : Manager :=
  emit (state_changed s)
    (mkManager (serial_manager m) s (_current_port m)
       (_current_baudrate m) (_serial_thread m) (_serial_thread_class m)
       (signals m)).

(** [state] *)
Definition state (m : Manager) : ConnectionState := _state m.

(** [is_connected] *)
Definition is_connected (m : Manager) : bool :=
  ConnectionState_eqb (_state m) CONNECTED && isOpen (serial_manager m).

(** [current_port] and [current_baudrate] *)
Definition current_port (m : Manager) : option string :=
  if is_connected m then _current_port m else None.
Definition current_baudrate (m : Manager) : option string :=
  if is_connected m then _current_baudrate m else None.

(** ** Code that may raise: a state and exception monad.  The state
    reached when an exception is raised is kept, as the attributes
    assigned before a [raise] stay assigned. *)
Definition M (A : Type) : Type := Manager -> (exn + A) * Manager.

Definition ret {A} (a : A) : M A := fun m => (inr a, m).

Definition bind {A B} (c : M A) (k : A -> M B) : M B :=
  fun m =>
    match c m with
    | (inl e, m') => (inl e, m')
    | (inr a, m') => k a m'
    end.

Definition raise {A} (e : exn) : M A := fun m => (inl e, m).

(** A statement that cannot raise. *)
Definition modify (f : Manager -> Manager) : M unit :=
  fun m => (inr tt, f m).

(** A call on a collaborator: it raises what the outside world says, or
    returns and has its effect. *)
Definition call (outcome : option exn) (effect : Manager -> Manager)
  : M unit :=
  match outcome with
  | Some e => raise e
  | None => modify effect
  end.

Definition of_sum {A} (r : exn + A) : M A :=
  match r with
  | inl e => raise e
  | inr a => ret a
  end.

Notation "x <- c ;; k" := (bind c (fun x => k))
  (at level 61, c at next level, right associativity).
Notation "c ;;; k" := (bind c (fun _ => k))
  (at level 61, right associativity).

(** [try: body except Exception as e: handler(e)] *)
Definition try_except (body : M unit) (handler : exn -> Manager -> Manager)
  (m : Manager) : Manager :=
  match body m with
  | (inl e, m') => handler e m'
  | (inr _, m') => m'
  end.

(** What the collaborators answer while a prior session is torn down:
    [isRunning()], [stop()] followed by [wait(...)], and [close()]. *)
Record Teardown : Type := mkTeardown {
  td_isRunning : bool;
  td_stop_wait : option exn;
  td_close : option exn
}.

(** What the collaborators answer during [_connect_worker]. *)
Record Attempt : Type := mkAttempt {
  at_teardown : Teardown;
  at_set_port : option exn;             (* serial_manager.port = port *)
  at_set_baudrate : option exn;         (* serial_manager.baudrate = ... *)
  at_set_timeout : option exn;          (* serial_manager.timeout = ... *)
  at_open : option exn;                 (* serial_manager.open() *)
  at_reset_input_buffer : option exn;   (* serial_manager.reset_input_buffer() *)
  at_construct : option exn;            (* Other_class(gui_instance=...) *)
  at_start : option exn                 (* thread.start() *)
}.

(** The statements that stop a running thread, shared by [disconnect]
    and [_connect_worker]. *)
Definition stop_thread (td : Teardown) : M unit :=
  fun m =>
    match _serial_thread m with
    | Some t =>
        if has_isRunning t then
          if td_isRunning td then call (td_stop_wait td) (fun m => m) m
          else ret tt m
        else ret tt m
    | None => ret tt m
    end.

Definition set_port_attr (p : string) (sm : SerialManager) : SerialManager :=
  mkSerialManager (handle_open sm) (priority_lane sm) (normal_lane sm)
    (Some p) (baudrate sm) (timeout sm).
Definition set_baudrate_attr (b : Z) (sm : SerialManager) : SerialManager :=
  mkSerialManager (handle_open sm) (priority_lane sm) (normal_lane sm)
    (port sm) (Some b) (timeout sm).
Definition set_timeout_attr (t : Q) (sm : SerialManager) : SerialManager :=
  mkSerialManager (handle_open sm) (priority_lane sm) (normal_lane sm)
    (port sm) (baudrate sm) (Some t).

(** [self._serial_thread_class(gui_instance=gui_instance)] *)
Definition instantiate (cls : ThreadClass) (a : Attempt) : M ThreadObject :=
  match cls with
  | SerialThread_class =>
      raise (mkExn "TypeError"
        "SerialThread.__init__() got an unexpected keyword argument 'gui_instance'")
  | Other_class h =>
      match at_construct a with
      | Some e => raise e
      | None => ret (mkThread h)
      end
  end.

(** The [try] block of [_connect_worker]. *)
Definition connect_attempt (cfg : Config) (a : Attempt)
  (port baudrate : string) : M unit :=
  stop_thread (at_teardown a) ;;;
  call (td_close (at_teardown a)) (update_serial_manager (set_open false)) ;;;
  call (at_set_port a) (update_serial_manager (set_port_attr port)) ;;;
  b <- of_sum (PyInt.int baudrate) ;;
  call (at_set_baudrate a) (update_serial_manager (set_baudrate_attr b)) ;;;
  call (at_set_timeout a)
    (update_serial_manager (set_timeout_attr (SERIAL_TIMEOUT cfg))) ;;;
  call (at_open a) (update_serial_manager (set_open true)) ;;;
  call (at_reset_input_buffer a) (fun m => m) ;;;
  (fun m =>
     match _serial_thread_class m with
     | Some cls =>
         (t <- instantiate cls a ;;
          modify (set_thread (Some t)) ;;;
          call (at_start a) (fun m => m)) m
     | None => ret tt m
     end) ;;;
  modify (set_current (Some port) (Some baudrate)) ;;;
  modify (_set_state CONNECTED) ;;;
  modify (emit (connected port baudrate)).

(** The [except Exception as e] clause of [_connect_worker] and of
    [disconnect]. *)
Definition on_exception (e : exn) (m : Manager) : Manager :=
  emit (error (exn_message e)) (_set_state ERROR m).

(** [_connect_worker] *)
Definition _connect_worker (cfg : Config) (a : Attempt)
  (port baudrate : string) (m : Manager) : Manager :=
  try_except (connect_attempt cfg a port baudrate) on_exception m.

(** The [try] block of [disconnect]. *)
Definition disconnect_attempt (td : Teardown) : M unit :=
  stop_thread td ;;;
  call (td_close td) (update_serial_manager (set_open false)) ;;;
  modify (set_thread None) ;;;
  modify (set_current None None) ;;;
  modify (_set_state DISCONNECTED) ;;;
  modify (emit disconnected).

(** [disconnect] *)
Definition disconnect (td : Teardown) (m : Manager) : Manager :=
  try_except (disconnect_attempt td) on_exception m.

(** [connect], up to the start of the background thread.  The second
    component holds the arguments given to [_connect_worker] when the
    thread is started. *)
Definition connect (td : Teardown) (port baudrate : string) (m : Manager)
  : Manager * option (string * string) :=
  if negb (Text.truthy port) then
    (emit (error "No serial port specified") m, None)
  else if negb (Text.truthy baudrate) then
    (emit (error "No baud rate specified") m, None)
  else
    let m := if is_connected m then disconnect td m else m in
    let m := _set_state CONNECTING m in
    (m, Some (port, baudrate)).

(** [connect] followed by the run of the background thread it starts. *)
Definition connect_and_wait (cfg : Config) (td : Teardown) (a : Attempt)
  (port baudrate : string) (m : Manager) : Manager :=
  match connect td port baudrate m with
  | (m', Some (p, b)) => _connect_worker cfg a p b m'
  | (m', None) => m'
  end.

(** [request_position_update] *)
Definition request_position_update (m : Manager) : Manager :=
  if isOpen (serial_manager m) then
    update_serial_manager (write M119 true)
      (update_serial_manager (write M114 true) m)
  else m.

(** The states announced by [state_changed], in order. *)
Fixpoint announced_states (sgs : list signal) : list ConnectionState :=
  match sgs with
  | [] => []
  | state_changed s :: rest => s :: announced_states rest
  | _ :: rest => announced_states rest
  end.

End ConnectionManager.

(* ================================================================== *)
(** * Vocabulary of the statements                                     *)
(* ================================================================== *)

(** A text without white space. *)
Fixpoint no_space (p : string) : bool :=
  match p with
  | EmptyString => true
  | String c r => negb (Text.is_space c) && no_space r
  end.

(** Reads and writes on the serial handle. *)
Definition is_serial_io (e : SerialThread.io_event) : bool :=
  match e with
  | SerialThread.SignalEmit _ => false
  | _ => true
  end.

Definition is_disconnect_event (e : SerialThread.io_event) : bool :=
  match e with
  | SerialThread.SignalEmit d => String.eqb d SerialThread.DISCONNECTED
  | _ => false
  end.

(** Is there, in the trace, a read or a write on the handle after a
    disconnect event? *)
Fixpoint io_after_disconnect (tr : list SerialThread.io_event) : bool :=
  match tr with
  | [] => false
  | e :: rest =>
      (is_disconnect_event e && existsb is_serial_io rest)
      || io_after_disconnect rest
  end.

Definition is_some {A} (o : option A) : bool :=
  match o with Some _ => true | None => false end.

Definition is_inl {A B} (r : A + B) : bool :=
  match r with inl _ => true | inr _ => false end.

(** Does some step of the worker sequence raise?  The steps: stop the
    prior loop (when there is one and it runs), close the prior handle,
    configure, open, clear the buffer, start the new loop (when a thread
    class is set). *)
Definition some_step_raises (a : ConnectionManager.Attempt)
  (baudrate : string) (m : ConnectionManager.Manager) : bool :=
  let td := ConnectionManager.at_teardown a in
  (match ConnectionManager._serial_thread m with
   | Some t => ConnectionManager.has_isRunning t
               && ConnectionManager.td_isRunning td
               && is_some (ConnectionManager.td_stop_wait td)
   | None => false
   end)
  || is_some (ConnectionManager.td_close td)
  || is_some (ConnectionManager.at_set_port a)
  || is_inl (PyInt.int baudrate)
  || is_some (ConnectionManager.at_set_baudrate a)
  || is_some (ConnectionManager.at_set_timeout a)
  || is_some (ConnectionManager.at_open a)
  || is_some (ConnectionManager.at_reset_input_buffer a)
  || (match ConnectionManager._serial_thread_class m with
      | Some ConnectionManager.SerialThread_class => true
      | Some (ConnectionManager.Other_class _) =>
          is_some (ConnectionManager.at_construct a)
          || is_some (ConnectionManager.at_start a)
      | None => false
      end).

(** The two checks that can end a pause: the timeout check of an
    iteration, and the acknowledgment check of a received line. *)
Inductive pause_check : Type :=
| TimeoutCheck (current_time : Q)
| LineCheck (data : string) (current_time : Q).

Definition apply_check (cfg : Config) (s : SerialThread.State)
  (c : pause_check) : SerialThread.State :=
  match c with
  | TimeoutCheck t => SerialThread._check_polling_timeout cfg t s
  | LineCheck d t => SerialThread._check_blocking_command_complete cfg d t s
  end.

(** The states a manager goes through between two observations: the
    state at the first one, then the states announced since. *)
Definition state_sequence (before after : ConnectionManager.Manager)
  : list ConnectionManager.ConnectionState :=
  ConnectionManager._state before
  :: ConnectionManager.announced_states
       (skipn (List.length (ConnectionManager.signals before))
              (ConnectionManager.signals after)).

(** ** Sample values *)

Definition LF : string := String (ascii_of_nat 10) EmptyString.

(** Thresholds of the scenarios: a pause of at least 0.3 s and at most
    5 s; a position request every 0.1 s, an endstop request every 0.5 s. *)
Definition sample_config : Config :=
  mkConfig (1#100) (1#10) (1#2) (3#10) 5 1 2.

(** Recognisers in the shape of the firmware's reports: a position report
    starts with [X:], an endstop report with [Endstops], and an
    acknowledgment contains [ok] whatever the case. *)
Definition sample_patterns : ParsingPatterns :=
  mkPatterns
    (fun s => Text.startswith s "X:")
    (fun s => Text.startswith s "Endstops")
    (fun s => Text.contains "ok" (Text.lower s)).

Definition sample_position_report : string :=
  "X:10.500 Y:20.000 Z:-5.250 U:0.028 V:-110.000 W:-290.000".

(** A router with every callback registered. *)
Definition full_router : Router.SerialResponseRouter :=
  Router.init true true true true true true true true.

(** An open handle with one homing command on the normal lane. *)
Definition homing_queued : Channel.SerialManager :=
  Channel.mkSerialManager true [] ["g28" ++ LF] None None None.

(** An open handle with one motion command on the normal lane, and an
    iteration in which 40 bytes are pending, the write of the command
    fails, and the handle still delivers the buffered line [ok]. *)
Definition move_queued : Channel.SerialManager :=
  Channel.mkSerialManager true [] ["G1 X10" ++ LF] None None None.
Definition failed_write_iteration : SerialThread.iteration :=
  SerialThread.mkIteration true (SerialThread.Returned 40%Z) 100 false
    [SerialThread.mkRx (SerialThread.Returned 40%Z)
       (SerialThread.Returned ("ok" ++ LF))].

(** Iterations of the loop at clock reading [t]: one in which nothing is
    pending, and one in which the handle delivers the line [ok]. *)
Definition quiet_iteration (t : Q) : SerialThread.iteration :=
  SerialThread.mkIteration true (SerialThread.Returned 0%Z) t true [].
Definition ok_iteration (t : Q) : SerialThread.iteration :=
  SerialThread.mkIteration true (SerialThread.Returned 3%Z) t true
    [SerialThread.mkRx (SerialThread.Returned 3%Z)
       (SerialThread.Returned ("ok" ++ LF))].

(** No prior session to tear down, and collaborators that never raise. *)
Definition quiet_teardown : ConnectionManager.Teardown :=
  ConnectionManager.mkTeardown false None None.
Definition clean_attempt : ConnectionManager.Attempt :=
  ConnectionManager.mkAttempt quiet_teardown None None None None None None None.

(** An attempt in which the port opens and clearing the input buffer
    then raises. *)
Definition attempt_failing_after_open : ConnectionManager.Attempt :=
  ConnectionManager.mkAttempt quiet_teardown None None None None
    (Some (mkExn "SerialException" "device reports readiness to read but returned no data"))
    None None.

(** ** Reading the trace of the loop *)

Definition is_readline (e : SerialThread.io_event) : bool :=
  match e with
  | SerialThread.CallReadline => true
  | _ => false
  end.

Definition is_write_internal (e : SerialThread.io_event) : bool :=
  match e with
  | SerialThread.CallWriteInternal _ => true
  | _ => false
  end.

(** How many events of a trace satisfy a test. *)
Definition occurrences (p : SerialThread.io_event -> bool)
  (tr : list SerialThread.io_event) : nat :=
  List.length (filter p tr).

(** The texts emitted on [serialSignal], in order. *)
Fixpoint emitted (tr : list SerialThread.io_event) : list string :=
  match tr with
  | [] => []
  | SerialThread.SignalEmit d :: rest => d :: emitted rest
  | _ :: rest => emitted rest
  end.

(** How many times a command is waiting on a lane. *)
Definition queued (cmd : string) (lane : list string) : nat :=
  count_occ string_dec lane cmd.

(** A text that is not empty and has no white space around. *)
Definition clean (d : string) : Prop :=
  Text.truthy d = true /\ Text.strip d = d.

(** An iteration whose pending-byte probe raises, and a read whose
    [inWaiting()] raises. *)
Definition failed_probe_iteration : SerialThread.iteration :=
  SerialThread.mkIteration true SerialThread.Raised 100 true [].
Definition failed_read : SerialThread.rx_step :=
  SerialThread.mkRx SerialThread.Raised SerialThread.Raised.

(** A read that delivers the text of the disconnect marker, with white
    space around it. *)
Definition marker_read : SerialThread.rx_step :=
  SerialThread.mkRx (SerialThread.Returned 21%Z)
    (SerialThread.Returned (" SERIAL-DISCONNECTED" ++ LF)).

(** ** The life cycle *)

(** Does the teardown of a session raise?  Stopping the thread, when
    there is one and it runs, or closing the handle. *)
Definition teardown_raises (td : ConnectionManager.Teardown)
  (m : ConnectionManager.Manager) : bool :=
  (match ConnectionManager._serial_thread m with
   | Some t => ConnectionManager.has_isRunning t
               && ConnectionManager.td_isRunning td
               && is_some (ConnectionManager.td_stop_wait td)
   | None => false
   end)
  || is_some (ConnectionManager.td_close td).


(** The last state announced by [state_changed] is the state of the
    manager; a manager that has announced nothing is Disconnected. *)
Definition in_sync (m : ConnectionManager.Manager) : Prop :=
  last (ConnectionManager.announced_states (ConnectionManager.signals m))
       ConnectionManager.DISCONNECTED
  = ConnectionManager._state m.

(** A teardown in which closing the handle raises. *)
Definition failing_teardown : ConnectionManager.Teardown :=
  ConnectionManager.mkTeardown false None
    (Some (mkExn "SerialException" "could not close port")).

(** A manager connected to [COM3] at 115200 baud. *)
Definition connected_manager : ConnectionManager.Manager :=
  ConnectionManager.connect_and_wait sample_config quiet_teardown
    clean_attempt "COM3" "115200" (ConnectionManager.init Channel.fresh).

(** ** Reads of a batch *)

(** A turn of the batch in which something is waiting and a line is
    read, and a turn in which [inWaiting()] or [readline()] raises. *)
Definition good_read (step : SerialThread.rx_step) : bool :=
  match SerialThread.rx_waiting step, SerialThread.rx_line step with
  | SerialThread.Returned w, SerialThread.Returned _ => negb (w =? 0)%Z
  | _, _ => false
  end.

Definition failing_read (step : SerialThread.rx_step) : bool :=
  match SerialThread.rx_waiting step with
  | SerialThread.Raised => true
  | SerialThread.Returned w =>
      negb (w =? 0)%Z
      && match SerialThread.rx_line step with
         | SerialThread.Raised => true
         | SerialThread.Returned _ => false
         end
  end.

(** The calls made on the handle in a failing turn, up to the one that
    raises. *)
Definition failing_calls (step : SerialThread.rx_step)
  : list SerialThread.io_event :=
  match SerialThread.rx_waiting step with
  | SerialThread.Raised => [SerialThread.CallInWaiting]
  | SerialThread.Returned _ =>
      [SerialThread.CallInWaiting; SerialThread.CallReadline]
  end.

Definition log_all (events : list SerialThread.io_event)
  (s : SerialThread.State) : SerialThread.State :=
  fold_left (fun st e => SerialThread.log e st) events s.

(** A read that delivers the line [ok], and a read whose [readline()]
    raises. *)
Definition ok_read : SerialThread.rx_step :=
  SerialThread.mkRx (SerialThread.Returned 3%Z)
    (SerialThread.Returned ("ok" ++ LF)).
Definition failed_readline : SerialThread.rx_step :=
  SerialThread.mkRx (SerialThread.Returned 5%Z) SerialThread.Raised.

(* ================================================================== *)
(** * Lemmas on texts and clock comparisons                            *)
(* ================================================================== *)

Section TextFacts.
Import Text.

Lemma upper_char_space (c : ascii) :
  is_space c = true -> upper_char c = c.
Proof.
  destruct c as [[] [] [] [] [] [] [] []]; vm_compute; congruence.
Qed.

Lemma prefix_cons_inv (a b : ascii) (p s : string) :
  String.prefix (String a p) (String b s) = true ->
  a = b /\ String.prefix p s = true.
Proof.
  simpl. destruct (ascii_dec a b) as [->|]; [tauto | discriminate].
Qed.

Lemma prefix_cons (a : ascii) (p s : string) :
  String.prefix p s = true ->
  String.prefix (String a p) (String a s) = true.
Proof.
  intro H. simpl. destruct (ascii_dec a a); [exact H | congruence].
Qed.

Lemma prefix_empty_inv (p : string) :
  String.prefix p EmptyString = true -> p = EmptyString.
Proof. destruct p; [reflexivity | discriminate]. Qed.

Lemma prefix_nil (s : string) : String.prefix EmptyString s = true.
Proof. destruct s; reflexivity. Qed.

(** Trailing white space never reaches into a prefix free of it. *)
Lemma rstrip_keeps_prefix (p : string) :
  no_space p = true ->
  forall s, String.prefix p (upper s) = true ->
            String.prefix p (upper (rstrip s)) = true.
Proof.
  induction p as [|a p IH]; intros Hp s H.
  - apply prefix_nil.
  - simpl in Hp. apply andb_true_iff in Hp as [Ha Hp].
    destruct s as [|c r]; [discriminate|].
    change (upper (String c r)) with (String (upper_char c) (upper r)) in H.
    apply prefix_cons_inv in H as [Hc Hr].
    specialize (IH Hp r Hr).
    assert (Hsp : is_space c = false).
    { destruct (is_space c) eqn:E; [|reflexivity].
      rewrite (upper_char_space c E) in Hc. subst a.
      rewrite E in Ha. discriminate. }
    simpl rstrip. destruct (rstrip r) as [|c' r'] eqn:E.
    + rewrite Hsp. apply prefix_empty_inv in IH. subst p.
      change (upper (String c "")) with (String (upper_char c) "").
      rewrite <- Hc. apply prefix_cons. reflexivity.
    + change (upper (String c (String c' r')))
        with (String (upper_char c) (upper (String c' r'))).
      rewrite <- Hc. apply prefix_cons. exact IH.
Qed.

Lemma lstrip_keeps_prefix (a : ascii) (p s : string) :
  is_space a = false ->
  String.prefix (String a p) (upper s) = true -> lstrip s = s.
Proof.
  intros Ha H. destruct s as [|c r]; [reflexivity|].
  change (upper (String c r)) with (String (upper_char c) (upper r)) in H.
  apply prefix_cons_inv in H as [Hc _].
  simpl. destruct (is_space c) eqn:E; [|reflexivity].
  rewrite (upper_char_space c E) in Hc. congruence.
Qed.

(** [strip] before [upper] keeps a prefix that has no white space. *)
Lemma strip_keeps_prefix (p s : string) :
  no_space p = true ->
  startswith (upper s) p = true -> startswith (upper (strip s)) p = true.
Proof.
  unfold startswith, strip. intros Hp H.
  destruct p as [|a p]; [apply prefix_nil|].
  assert (Ha : is_space a = false).
  { simpl in Hp. apply andb_true_iff in Hp as [Ha _].
    now apply negb_true_iff in Ha. }
  rewrite (lstrip_keeps_prefix a p s Ha H).
  now apply rstrip_keeps_prefix.
Qed.

Lemma is_blocking_strip (s : string) :
  SerialThread.is_blocking (upper s) = true ->
  SerialThread.is_blocking (upper (strip s)) = true.
Proof.
  unfold SerialThread.is_blocking. rewrite !existsb_exists.
  intros (p & Hin & Hp). exists p. split; [exact Hin|].
  apply strip_keeps_prefix; [|exact Hp].
  simpl in Hin. destruct Hin as [<-|[<-|[<-|[]]]]; reflexivity.
Qed.

Lemma is_blocking_truthy (s : string) :
  SerialThread.is_blocking (upper s) = true -> truthy s = true.
Proof.
  destruct s; [discriminate | reflexivity].
Qed.

End TextFacts.

Section ClockFacts.

Lemma Qge_bool_true (a b : Q) : Qge_bool a b = true <-> b <= a.
Proof. unfold Qge_bool. apply Qle_bool_iff. Qed.

Lemma Qlt_bool_true (a b : Q) : Qlt_bool a b = true <-> a < b.
Proof.
  unfold Qlt_bool. rewrite negb_true_iff. split.
  - intro H. apply Qnot_le_lt. intro Hle.
    apply Qle_bool_iff in Hle. congruence.
  - intro H. destruct (Qle_bool b a) eqn:E; [|reflexivity].
    apply Qle_bool_iff in E. exfalso. exact (Qlt_not_le _ _ H E).
Qed.

Lemma Qge_bool_false (a b : Q) : Qge_bool a b = false <-> a < b.
Proof.
  rewrite <- Qlt_bool_true. unfold Qlt_bool, Qge_bool.
  rewrite negb_true_iff. tauto.
Qed.

Lemma Qlt_bool_false (a b : Q) : Qlt_bool a b = false <-> b <= a.
Proof.
  rewrite <- Qge_bool_true. unfold Qlt_bool, Qge_bool.
  rewrite negb_false_iff. tauto.
Qed.

End ClockFacts.

(* ================================================================== *)
(** * The polling state machine                                        *)
(* ================================================================== *)

Section Polling.
Import Text Channel SerialThread.

Lemma paused_send_status_requests (cfg : Config) (t : Q) (s : State) :
  status_polling_paused s = true -> _send_status_requests cfg t s = s.
Proof. unfold _send_status_requests. now intros ->. Qed.

Lemma request_immediate_status_lanes (s : State) :
  priority_lane (serial_manager (_request_immediate_status s))
    = (priority_lane (serial_manager s) ++ [M114; M119])%list
  /\ normal_lane (serial_manager (_request_immediate_status s))
    = normal_lane (serial_manager s).
Proof.
  unfold _request_immediate_status, enqueue_priority. simpl.
  rewrite <- app_assoc. split; reflexivity.
Qed.

(** C1. A dequeued command whose uppercased text starts with [G28],
    [G29] or [M999], once written, leaves the polling state Paused with
    the pause start set to the current time; and in a Paused state the
    status-request step enqueues nothing: it leaves both lanes, and the
    whole state, as they were. *)
Theorem blocking_command_pauses_polling
  (cfg : Config) (s : State) (command : string) (mgr : SerialManager)
  (current_time : Q) :
  get_next_command (serial_manager s) = (Some command, mgr) ->
  is_blocking (upper command) = true ->
  let s' := _process_command_queue true current_time s in
  status_polling_paused s' = true
  /\ blocking_command_start_time s' = current_time
  /\ trace s' = (trace s ++ [CallWriteInternal command])%list
  /\ forall (t : Q) (p : State),
       status_polling_paused p = true ->
       _send_status_requests cfg t p = p
       /\ priority_lane (serial_manager (_send_status_requests cfg t p))
          = priority_lane (serial_manager p)
       /\ normal_lane (serial_manager (_send_status_requests cfg t p))
          = normal_lane (serial_manager p).
Proof.
  intros Hq Hb s'. subst s'. unfold _process_command_queue.
  rewrite Hq, (is_blocking_truthy _ Hb). simpl negb. cbv iota.
  rewrite (is_blocking_strip _ Hb). simpl.
  repeat split; try reflexivity;
    now rewrite (paused_send_status_requests cfg t p).
Qed.

Lemma blocking_command_pauses_polling_witness :
  status_polling_paused
    (_process_command_queue true 100 (init homing_queued 100)) = true
  /\ blocking_command_start_time
    (_process_command_queue true 100 (init homing_queued 100)) = 100.
Proof.
  destruct (blocking_command_pauses_polling sample_config
              (init homing_queued 100) ("g28" ++ LF)
              (set_lanes [] [] homing_queued) 100)
    as (H1 & H2 & _).
  - reflexivity.
  - reflexivity.
  - split; [exact H1 | exact H2].
Defined.

Lemma active_state_ignores_checks (cfg : Config) (later : list pause_check) :
  forall s : State,
    status_polling_paused s = false ->
    fold_left (apply_check cfg) later s = s.
Proof.
  induction later as [|c later IH]; intros s Hs; [reflexivity|].
  simpl. replace (apply_check cfg s c) with s; [now apply IH|].
  destruct c; simpl.
  - unfold _check_polling_timeout. now rewrite Hs.
  - unfold _check_blocking_command_complete. now rewrite Hs.
Qed.

(** C2. In a Paused state whose pause has lasted at least [MAX_PAUSE],
    the timeout check makes the state Active and issues one refresh: a
    priority position request followed by a priority endstop request,
    and nothing else.  Whatever timeout checks and line checks follow,
    they change nothing: neither the timeout nor an acknowledgment
    issues another refresh for that pause. *)
Theorem polling_timeout_fires_once
  (cfg : Config) (s : State) (current_time : Q) :
  status_polling_paused s = true ->
  BLOCKING_COMMAND_MAX_PAUSE cfg
    <= current_time - blocking_command_start_time s ->
  let s' := _check_polling_timeout cfg current_time s in
  status_polling_paused s' = false
  /\ priority_lane (serial_manager s')
     = (priority_lane (serial_manager s) ++ [M114; M119])%list
  /\ normal_lane (serial_manager s') = normal_lane (serial_manager s)
  /\ trace s' = trace s
  /\ forall later : list pause_check,
       fold_left (apply_check cfg) later s' = s'.
Proof.
  intros Hp Hmax s'.
  assert (E : s' = _request_immediate_status (set_paused false s)).
  { subst s'. unfold _check_polling_timeout.
    rewrite Hp. apply Qge_bool_true in Hmax. now rewrite Hmax. }
  rewrite E.
  destruct (request_immediate_status_lanes (set_paused false s)) as [Hl Hn].
  repeat split; try assumption; try reflexivity.
  intro later. now apply active_state_ignores_checks.
Qed.

Lemma polling_timeout_fires_once_witness :
  let paused := _process_command_queue true 100 (init homing_queued 100) in
  let resumed := _check_polling_timeout sample_config 105 paused in
  status_polling_paused resumed = false
  /\ priority_lane (serial_manager resumed) = [M114; M119]
  /\ _check_polling_timeout sample_config 111 resumed = resumed
  /\ _check_blocking_command_complete sample_config "ok" 112 resumed = resumed.
Proof.
  intros paused resumed.
  destruct (polling_timeout_fires_once sample_config paused 105)
    as (H1 & H2 & _ & _ & H5).
  - reflexivity.
  - vm_compute. discriminate.
  - split; [exact H1|]. split; [exact H2|].
    split; [exact (H5 [TimeoutCheck 111]) | exact (H5 [LineCheck "ok" 112])].
Defined.

(** C3. For a line processed in the Paused state that contains [ok],
    whatever the case: if less than [MIN_PAUSE] has elapsed since the
    pause started, nothing changes and the state stays Paused; if at
    least [MIN_PAUSE] has elapsed, the state becomes Active and the
    position and endstop refresh is put on the priority lane. *)
Theorem acknowledgment_ends_pause_after_min
  (cfg : Config) (s : State) (line : string) (current_time : Q) :
  status_polling_paused s = true ->
  contains "ok" (lower line) = true ->
  let s' := _check_blocking_command_complete cfg line current_time s in
  (current_time - blocking_command_start_time s
     < BLOCKING_COMMAND_MIN_PAUSE cfg ->
   s' = s /\ status_polling_paused s' = true)
  /\ (BLOCKING_COMMAND_MIN_PAUSE cfg
        <= current_time - blocking_command_start_time s ->
      status_polling_paused s' = false
      /\ priority_lane (serial_manager s')
         = (priority_lane (serial_manager s) ++ [M114; M119])%list
      /\ normal_lane (serial_manager s') = normal_lane (serial_manager s)).
Proof.
  intros Hp Hok s'. subst s'. unfold _check_blocking_command_complete.
  rewrite Hp, Hok. simpl negb. cbv iota. split.
  - intro Hlt. apply Qge_bool_false in Hlt. rewrite Hlt. now split.
  - intro Hge. apply Qge_bool_true in Hge. rewrite Hge.
    destruct (request_immediate_status_lanes (set_paused false s)) as [Hl Hn].
    repeat split; assumption.
Qed.

Lemma acknowledgment_ends_pause_after_min_witness :
  let paused := _process_command_queue true 100 (init homing_queued 100) in
  status_polling_paused
    (_check_blocking_command_complete sample_config "ok" (100 + (5#100)) paused)
    = true
  /\ status_polling_paused
    (_check_blocking_command_complete sample_config "ok" (100 + (35#100)) paused)
    = false.
Proof.
  intro paused. split.
  - destruct (acknowledgment_ends_pause_after_min sample_config paused "ok"
                (100 + (5#100)) eq_refl eq_refl) as [Hearly _].
    apply Hearly. reflexivity.
  - destruct (acknowledgment_ends_pause_after_min sample_config paused "ok"
                (100 + (35#100)) eq_refl eq_refl) as [_ Hlate].
    apply Hlate. vm_compute. discriminate.
Defined.

(** The scenario of the minimum pause, through the loop: [g28] is written
    at t = 100; an [ok] at t + 0.05 leaves the state Paused, an [ok] at
    t + 0.35 makes it Active and queues the refresh. *)
Lemma scenario_min_pause :
  let start := init homing_queued 100 in
  status_polling_paused (run sample_config [quiet_iteration 100] start) = true
  /\ status_polling_paused
       (run sample_config
          [quiet_iteration 100; ok_iteration (100 + (5#100))] start) = true
  /\ (let s := run sample_config
                 [quiet_iteration 100; ok_iteration (100 + (5#100));
                  ok_iteration (100 + (35#100))] start in
      status_polling_paused s = false
      /\ priority_lane (serial_manager s) = [M114; M119]).
Proof. repeat split. Qed.

(** The scenario of the maximum pause: [g28] is written at t = 100 and
    no acknowledgment arrives; the state is still Paused at t + 4.99 and
    is forced Active at t + 5, where the refresh is queued and, the state
    being Active again, the periodic requests of that iteration follow. *)
Lemma scenario_max_pause :
  let start := init homing_queued 100 in
  status_polling_paused
    (run sample_config
       [quiet_iteration 100; quiet_iteration (100 + (499#100))] start) = true
  /\ (let s := run sample_config
                 [quiet_iteration 100; quiet_iteration (100 + (499#100));
                  quiet_iteration 105] start in
      status_polling_paused s = false
      /\ priority_lane (serial_manager s) = [M114; M119; M114; M119]).
Proof. repeat split. Qed.

End Polling.

(* ================================================================== *)
(** * Termination of the I/O loop on a disconnect                      *)
(* ================================================================== *)

Section Disconnect.
Import Text Channel SerialThread.

(** A loop whose running flag is cleared does nothing more. *)
Lemma stopped_loop_is_inert (cfg : Config) (its : list iteration) (s : State) :
  running s = false -> run cfg its s = s.
Proof. destruct its; simpl; [reflexivity | now intros ->]. Qed.

(** X27. When the pending-byte probe fails, the disconnect event is the
    last thing the loop does, whatever the outside world holds in store. *)
Lemma probe_failure_is_terminal
  (cfg : Config) (it : iteration) (its : list iteration) (s : State) :
  running s = true -> it_open it = true -> it_probe it = Raised ->
  run cfg (it :: its) s = log (SignalEmit DISCONNECTED) (log CallInWaiting s).
Proof.
  intros Hr Ho Hp. simpl. unfold run_body. now rewrite Hr, Ho, Hp.
Qed.

(** When a read fails, the rest of the batch is not read, and the
    following iterations are not run. *)
Lemma read_failure_is_terminal
  (cfg : Config) (n : nat) (step : rx_step) (rx : list rx_step)
  (t : Q) (s : State) (its : list iteration) :
  rx_waiting step = Raised
  \/ (exists w, rx_waiting step = Returned w /\ w <> 0%Z
                /\ rx_line step = Raised) ->
  let s' := read_lines cfg (S n) (step :: rx) t s in
  running s' = false
  /\ (exists io, trace s' = (trace s ++ io ++ [SignalEmit DISCONNECTED])%list)
  /\ run cfg its s' = s'.
Proof.
  intros H s'.
  assert (Hs : running s' = false
               /\ exists io,
                    trace s' = (trace s ++ io ++ [SignalEmit DISCONNECTED])%list).
  { subst s'. simpl. destruct H as [H | (w & Hw & Hnz & Hl)].
    - rewrite H. split; [reflexivity|]. exists [CallInWaiting]. simpl.
      now rewrite <- !app_assoc.
    - rewrite Hw, Hl. apply Z.eqb_neq in Hnz. rewrite Hnz.
      split; [reflexivity|]. exists [CallInWaiting; CallReadline]. simpl.
      now rewrite <- !app_assoc. }
  destruct Hs as [Hr Ht]. repeat split; try assumption.
  now apply stopped_loop_is_inert.
Qed.

(** C4, at the input where it fails.  A motion command is queued, 40
    bytes are pending and the write fails: the loop emits the disconnect
    event and, in the same iteration, goes on to ask the handle for its
    pending bytes, reads a line from it and emits that line.  Only then
    does the loop stop. *)
Theorem write_failure_is_followed_by_reads :
  let s := run sample_config [failed_write_iteration] (init move_queued 100) in
  trace s
  = [ CallInWaiting; CallWriteInternal ("G1 X10" ++ LF);
      SignalEmit DISCONNECTED;
      CallInWaiting; CallReadline; SignalEmit "ok" ]
  /\ io_after_disconnect (trace s) = true
  /\ running s = false.
Proof. repeat split. Qed.

End Disconnect.

(* ================================================================== *)
(** * The response router                                              *)
(* ================================================================== *)

Section Routing.
Import Router.
Variable pp : ParsingPatterns.

Ltac route_cases data :=
  unfold route_response;
  destruct (identify_response_type pp data) eqn:?; simpl;
  repeat match goal with
         | |- context [Qlt_bool ?a ?b] => destruct (Qlt_bool a b) eqn:?; simpl
         end.

(** C6. A line classified Ok that is routed while [is_homing()] answers
    true makes the router call homing-complete, the position-refresh
    request and set-sync-pending once each, at any clock reading, hence
    inside the manual-command window as well as outside. *)
Theorem homing_completion_calls_once
  (r : SerialResponseRouter) (now : Q) (data : string)
  (verbose_show ok_show sync_pending : bool) :
  identify_response_type pp data = OK ->
  has_get_is_homing r = true ->
  has_set_homing_complete r = true ->
  has_request_position_update r = true ->
  has_set_sync_pending r = true ->
  let calls :=
    snd (route_response pp r now true data verbose_show ok_show sync_pending) in
  invocations set_homing_complete calls = 1%nat
  /\ invocations request_position_update calls = 1%nat
  /\ invocations set_sync_pending calls = 1%nat.
Proof.
  intros Hok Hg Hh Hr Hs. unfold route_response, _check_homing_completion.
  rewrite Hok, Hg, Hh, Hr, Hs. simpl.
  destruct (Qlt_bool _ _); repeat split.
Qed.

(** C7, amended.  Outside the manual-command window, a line classified
    Position that is routed with [sync_pending] set makes the router call
    sync-trigger exactly once; routed with [sync_pending] unset, it does
    not call it. *)
Theorem sync_trigger_outside_window
  (r : SerialResponseRouter) (now : Q) (homing : bool) (data : string)
  (verbose_show ok_show : bool) :
  identify_response_type pp data = POSITION ->
  has_trigger_sync r = true ->
  (_manual_command_display_duration r
     <= now - _last_manual_command_time r ->
   invocations trigger_sync
     (snd (route_response pp r now homing data verbose_show ok_show true))
   = 1%nat)
  /\ invocations trigger_sync
       (snd (route_response pp r now homing data verbose_show ok_show false))
     = 0%nat.
Proof.
  intros Hpos Hts. unfold route_response, _handle_position.
  rewrite Hpos, Hts. simpl. split.
  - intro Hout. apply Qlt_bool_false in Hout. rewrite Hout.
    destruct (has_position_handler r); reflexivity.
  - destruct (Qlt_bool _ _); [reflexivity|].
    destruct (has_position_handler r); reflexivity.
Qed.

(** C8, amended.  After [mark_manual_command_sent] at time [sent], every
    line routed before the window has elapsed, other than the disconnect
    marker, is returned with [show_in_console] true and [handled] false,
    whatever its classification. *)
Theorem manual_window_forces_show
  (r : SerialResponseRouter) (sent now : Q) (homing : bool) (data : string)
  (verbose_show ok_show sync_pending : bool) :
  now - sent < _manual_command_display_duration r ->
  identify_response_type pp data <> DISCONNECT ->
  let res :=
    fst (route_response pp (mark_manual_command_sent sent r) now homing data
           verbose_show ok_show sync_pending) in
  show_in_console res = true
  /\ handled res = false
  /\ response_type res = identify_response_type pp data.
Proof.
  intros Hin Hnd res. subst res. apply Qlt_bool_true in Hin.
  unfold route_response. simpl. rewrite Hin.
  destruct (identify_response_type pp data); simpl;
    try (repeat split; reflexivity).
  congruence.
Qed.

(** C10. Whatever the line, the flags, the clock and the homing state,
    a result with [handled] false has [show_in_console] true. *)
Theorem unhandled_lines_are_shown
  (r : SerialResponseRouter) (now : Q) (homing : bool) (data : string)
  (verbose_show ok_show sync_pending : bool) :
  let res :=
    fst (route_response pp r now homing data verbose_show ok_show sync_pending) in
  handled res = false -> show_in_console res = true.
Proof.
  route_cases data; try reflexivity; try discriminate.
Qed.

End Routing.

Section RoutingSamples.
Import Router.

Lemma homing_completion_calls_once_witness :
  let calls :=
    snd (route_response sample_patterns
           (mark_manual_command_sent 100 full_router) 101 true "ok"
           false false false) in
  identify_response_type sample_patterns "ok" = OK
  /\ invocations set_homing_complete calls = 1%nat
  /\ invocations request_position_update calls = 1%nat
  /\ invocations set_sync_pending calls = 1%nat.
Proof.
  split; [reflexivity|].
  apply (homing_completion_calls_once sample_patterns
           (mark_manual_command_sent 100 full_router) 101 "ok"
           false false false); reflexivity.
Defined.

(** C7, as stated, fails inside the manual-command window: one second
    after a manual command, a position report routed with [sync_pending]
    set returns through the window branch, and sync-trigger is not
    called. *)
Lemma sync_trigger_skipped_in_window :
  let r := mark_manual_command_sent 100 full_router in
  identify_response_type sample_patterns sample_position_report = POSITION
  /\ has_trigger_sync r = true
  /\ invocations trigger_sync
       (snd (route_response sample_patterns r 101 false
               sample_position_report false false true)) = 0%nat
  /\ invocations trigger_sync
       (snd (route_response sample_patterns r 101 false
               sample_position_report false false true)) <> 1%nat.
Proof. repeat split. discriminate. Qed.

Lemma sync_trigger_outside_window_witness :
  invocations trigger_sync
    (snd (route_response sample_patterns full_router 1000 false
            sample_position_report false false true)) = 1%nat
  /\ invocations trigger_sync
       (snd (route_response sample_patterns full_router 1000 false
               sample_position_report false false false)) = 0%nat.
Proof.
  destruct (sync_trigger_outside_window sample_patterns full_router 1000
              false sample_position_report false false eq_refl eq_refl)
    as [Hset Hunset].
  split; [apply Hset; vm_compute; discriminate | exact Hunset].
Defined.

(** C8, as stated, fails on the disconnect marker: routed one second
    after a manual command, it is returned handled and hidden. *)
Lemma disconnect_in_window_is_hidden :
  let r := mark_manual_command_sent 100 full_router in
  let res :=
    fst (route_response sample_patterns r 101 false DISCONNECT_MARKER
           true true false) in
  101 - _last_manual_command_time r < _manual_command_display_duration r
  /\ show_in_console res = false
  /\ handled res = true.
Proof. repeat split. Qed.

Lemma manual_window_forces_show_witness :
  let res :=
    fst (route_response sample_patterns
           (mark_manual_command_sent 100 full_router) 101 false
           "Endstops - X: at min stop" false false false) in
  show_in_console res = true /\ handled res = false
  /\ response_type res = ENDSTOP.
Proof.
  apply (manual_window_forces_show sample_patterns full_router 100 101 false
           "Endstops - X: at min stop" false false false).
  - reflexivity.
  - vm_compute. discriminate.
Defined.

Lemma unhandled_lines_are_shown_witness :
  let res :=
    fst (route_response sample_patterns full_router 1000 false
           "echo: busy processing" false false false) in
  handled res = false /\ show_in_console res = true.
Proof.
  split; [reflexivity|].
  apply (unhandled_lines_are_shown sample_patterns full_router 1000 false
           "echo: busy processing" false false false).
  reflexivity.
Defined.

End RoutingSamples.

(* ================================================================== *)
(** * The connection life cycle                                        *)
(* ================================================================== *)

Section Lifecycle.
Import Channel ConnectionManager.

Ltac run_worker :=
  unfold _connect_worker, try_except, connect_attempt, stop_thread,
    instantiate, bind, call, of_sum, modify, raise, ret,
    on_exception, _set_state, emit, set_current, set_thread,
    update_serial_manager;
  simpl.

Ltac split_outcome :=
  match goal with
  | |- context [match ?x with _ => _ end] =>
      match type of x with
      | option _ => destruct x
      | bool => destruct x
      | sum _ _ => destruct x
      | ThreadClass => destruct x
      end
  end.

(** When no step raises, the worker announces Connected and the
    connection, and records the port and the baud rate. *)
Lemma worker_succeeds
  (cfg : Config) (a : Attempt) (port baudrate : string) (w : Manager) :
  some_step_raises a baudrate w = false ->
  let w' := _connect_worker cfg a port baudrate w in
  _state w' = CONNECTED
  /\ signals w'
     = (signals w ++ [state_changed CONNECTED; connected port baudrate])%list
  /\ isOpen (serial_manager w') = true
  /\ _current_port w' = Some port
  /\ _current_baudrate w' = Some baudrate.
Proof.
  unfold some_step_raises.
  destruct a as [[tr tsw tc] sp sb st op rib cons sta].
  destruct w as [sm s0 cp cb th cls sg].
  remember (PyInt.int baudrate) as parsed.
  simpl. intro H. run_worker. rewrite <- Heqparsed.
  repeat (split_outcome; simpl in *; try discriminate);
    rewrite <- app_assoc; repeat split.
Qed.

(** When some step raises, the worker ends in Error and announces the
    error with the message of the exception; nothing else is announced. *)
Lemma worker_fails
  (cfg : Config) (a : Attempt) (port baudrate : string) (w : Manager) :
  some_step_raises a baudrate w = true ->
  let w' := _connect_worker cfg a port baudrate w in
  _state w' = ERROR
  /\ exists e : exn,
       signals w'
       = (signals w ++ [state_changed ERROR; error (exn_message e)])%list.
Proof.
  unfold some_step_raises.
  destruct a as [[tr tsw tc] sp sb st op rib cons sta].
  destruct w as [sm s0 cp cb th cls sg].
  remember (PyInt.int baudrate) as parsed.
  simpl. intro H. run_worker. rewrite <- Heqparsed.
  repeat (split_outcome; simpl in *; try discriminate);
    (split; [reflexivity|]); rewrite <- app_assoc;
    first [ eexists; reflexivity
          | eexists (mkExn EmptyString _); reflexivity ].
Qed.

Lemma connect_starts_worker
  (td : Teardown) (port baudrate : string) (m : Manager) :
  Text.truthy port = true -> Text.truthy baudrate = true ->
  connect td port baudrate m
  = (_set_state CONNECTING (if is_connected m then disconnect td m else m),
     Some (port, baudrate)).
Proof. unfold connect. now intros -> ->. Qed.



(** With the [SerialThread] of [serial_thread.py] set as the thread
    class, the constructor call of the worker raises, and the attempt
    ends in Error although the port has opened. *)
Lemma connect_with_SerialThread_class :
  let m := connect_and_wait sample_config quiet_teardown clean_attempt
             "COM3" "115200"
             (set_serial_thread_class SerialThread_class (init fresh)) in
  state m = ERROR /\ isOpen (serial_manager m) = true.
Proof. split; reflexivity. Qed.

(** C9, as stated, fails when the handle is open and the state is not
    Connected.  The port opens, clearing the input buffer raises, and the
    manager is in Error with an open handle: it is not connected, and
    [request_position_update] enqueues both requests. *)
Lemma position_update_when_not_connected :
  let m := connect_and_wait sample_config quiet_teardown
             attempt_failing_after_open "COM3" "115200" (init fresh) in
  state m = ERROR
  /\ is_connected m = false
  /\ priority_lane (serial_manager m) = []
  /\ priority_lane (serial_manager (request_position_update m))
     = [M114; M119].
Proof. repeat split. Qed.

(** C9, amended.  [request_position_update] puts one position request
    followed by one endstop request on the priority lane exactly when the
    handle reports open, whatever the state of the manager; when the
    handle is closed it changes nothing. *)
Theorem position_update_follows_handle (m : Manager) :
  let m' := request_position_update m in
  (isOpen (serial_manager m) = true ->
   priority_lane (serial_manager m')
   = (priority_lane (serial_manager m) ++ [M114; M119])%list
   /\ normal_lane (serial_manager m') = normal_lane (serial_manager m)
   /\ _state m' = _state m
   /\ signals m' = signals m)
  /\ (isOpen (serial_manager m) = false -> m' = m)
  /\ (is_connected m = true -> isOpen (serial_manager m) = true).
Proof.
  unfold request_position_update, is_connected.
  destruct (isOpen (serial_manager m)) eqn:E.
  - split; [intros _ | split; [discriminate | reflexivity]].
    simpl. rewrite <- app_assoc. repeat split.
  - split; [discriminate | split; [reflexivity|]].
    now rewrite andb_false_r.
Qed.

Lemma position_update_follows_handle_witness :
  let m := connect_and_wait sample_config quiet_teardown clean_attempt
             "COM3" "115200" (init fresh) in
  priority_lane (serial_manager (request_position_update m)) = [M114; M119]
  /\ request_position_update (init fresh) = init fresh.
Proof.
  intro m.
  destruct (position_update_follows_handle m) as (Hopen & _ & _).
  destruct (position_update_follows_handle (init fresh)) as (_ & Hclosed & _).
  split; [exact (proj1 (Hopen eq_refl)) | exact (Hclosed eq_refl)].
Defined.

End Lifecycle.

(* ================================================================== *)
(** * More on texts                                                    *)
(* ================================================================== *)

Section MoreTextFacts.
Import Text.

Lemma is_space_upper_char (c : ascii) :
  is_space (upper_char c) = is_space c.
Proof. destruct c as [[] [] [] [] [] [] [] []]; reflexivity. Qed.

Lemma lstrip_upper (s : string) : lstrip (upper s) = upper (lstrip s).
Proof.
  induction s as [|c r IH]; [reflexivity|].
  change (upper (String c r)) with (String (upper_char c) (upper r)).
  simpl. rewrite is_space_upper_char.
  destruct (is_space c); [exact IH | reflexivity].
Qed.

Lemma rstrip_upper (s : string) : rstrip (upper s) = upper (rstrip s).
Proof.
  induction s as [|c r IH]; [reflexivity|].
  change (upper (String c r)) with (String (upper_char c) (upper r)).
  simpl. rewrite IH, is_space_upper_char.
  destruct (rstrip r); simpl; [destruct (is_space c)|]; reflexivity.
Qed.

(** Stripping and uppercasing commute. *)
Lemma strip_upper (s : string) : strip (upper s) = upper (strip s).
Proof. unfold strip. now rewrite lstrip_upper, rstrip_upper. Qed.

Lemma rstrip_idempotent (s : string) : rstrip (rstrip s) = rstrip s.
Proof.
  induction s as [|c r IH]; [reflexivity|].
  simpl. destruct (rstrip r) as [|c' r'] eqn:E.
  - destruct (is_space c) eqn:Ec; simpl; [reflexivity | now rewrite Ec].
  - change (rstrip (String c (String c' r')))
      with (match rstrip (String c' r') with
            | EmptyString =>
                if is_space c then EmptyString else String c EmptyString
            | r'' => String c r''
            end).
    now rewrite IH.
Qed.

Lemma lstrip_head (s : string) :
  lstrip s = EmptyString
  \/ exists c r, lstrip s = String c r /\ is_space c = false.
Proof.
  induction s as [|c r IH]; [now left|].
  simpl. destruct (is_space c) eqn:E; [exact IH|].
  right. now exists c, r.
Qed.

Lemma rstrip_head (c : ascii) (r : string) :
  is_space c = false -> exists r', rstrip (String c r) = String c r'.
Proof.
  intro E. simpl. destruct (rstrip r) as [|c' r'].
  - rewrite E. now exists EmptyString.
  - now exists (String c' r').
Qed.

(** A stripped text is left alone by [strip]. *)
Lemma strip_idempotent (s : string) : strip (strip s) = strip s.
Proof.
  unfold strip. destruct (lstrip_head s) as [E | (c & r & E & Hc)].
  - rewrite E. reflexivity.
  - rewrite E. destruct (rstrip_head c r Hc) as [r' E'].
    rewrite E'. simpl lstrip. rewrite Hc. rewrite <- E'.
    apply rstrip_idempotent.
Qed.

End MoreTextFacts.

(* ================================================================== *)
(** * More on the I/O loop                                             *)
(* ================================================================== *)

Section LoopFacts.
Import Text Channel SerialThread.

Lemma occurrences_app (p : io_event -> bool) (a b : list io_event) :
  occurrences p (a ++ b) = (occurrences p a + occurrences p b)%nat.
Proof. unfold occurrences. now rewrite filter_app, length_app. Qed.

Lemma emitted_app (a b : list io_event) :
  emitted (a ++ b) = (emitted a ++ emitted b)%list.
Proof.
  induction a as [|e a IH]; [reflexivity|].
  destruct e; simpl; now rewrite IH.
Qed.

(** The acknowledgment check touches neither the trace nor the running
    flag, and does nothing unless it ends a pause. *)
Lemma check_complete_frame (cfg : Config) (d : string) (t : Q) (s : State) :
  trace (_check_blocking_command_complete cfg d t s) = trace s
  /\ running (_check_blocking_command_complete cfg d t s) = running s.
Proof.
  unfold _check_blocking_command_complete.
  destruct (status_polling_paused s), (contains "ok" (lower d)); simpl;
    try (split; reflexivity).
  destruct (Qge_bool _ _); split; reflexivity.
Qed.

Lemma check_complete_still_paused
  (cfg : Config) (d : string) (t : Q) (s : State) :
  status_polling_paused (_check_blocking_command_complete cfg d t s) = true ->
  _check_blocking_command_complete cfg d t s = s.
Proof.
  unfold _check_blocking_command_complete.
  destruct (status_polling_paused s), (contains "ok" (lower d)); simpl;
    try reflexivity.
  destruct (Qge_bool _ _); [discriminate | reflexivity].
Qed.


Lemma clean_marker : clean DISCONNECTED.
Proof. split; reflexivity. Qed.

Ltac settle_events :=
  repeat split; auto using clean_marker;
  try (unfold occurrences; simpl; lia);
  try (simpl; repeat constructor; apply clean_marker).

Ltac count_events := unfold occurrences in *; simpl; lia.

(** What one batch of reads adds to the trace. *)
Lemma read_lines_events (cfg : Config) (t : Q) :
  forall (n : nat) (rx : list rx_step) (s : State),
  exists new : list io_event,
    trace (read_lines cfg n rx t s) = (trace s ++ new)%list
    /\ (occurrences is_readline new <= n)%nat
    /\ occurrences is_write_internal new = 0%nat
    /\ Forall clean (emitted new).
Proof.
  induction n as [|n IH]; intros rx s.
  - exists []. simpl. rewrite app_nil_r. settle_events.
  - destruct rx as [|step rx'].
    + exists [CallInWaiting]. simpl. settle_events.
    + simpl. destruct (rx_waiting step) as [w|].
      2:{ exists [CallInWaiting; SignalEmit DISCONNECTED]. simpl.
          rewrite <- app_assoc. settle_events. }
      destruct (w =? 0)%Z.
      { exists [CallInWaiting]. simpl. settle_events. }
      destruct (rx_line step) as [data_bytes|].
      2:{ exists [CallInWaiting; CallReadline; SignalEmit DISCONNECTED].
          simpl. rewrite <- !app_assoc. settle_events. }
      match goal with
      | |- context [read_lines cfg n rx' t ?s1] =>
          destruct (IH rx' s1) as (new & Ht & Hr & Hw & Hc); rewrite Ht
      end.
      destruct (truthy data_bytes); [destruct (truthy (strip data_bytes)) eqn:E|].
      * exists ([CallInWaiting; CallReadline; SignalEmit (strip data_bytes)]
                ++ new)%list.
        rewrite (proj1 (check_complete_frame cfg _ t _)). simpl.
        rewrite <- !app_assoc. simpl. repeat split.
        -- count_events.
        -- count_events.
        -- constructor; [|exact Hc]. split; [exact E | apply strip_idempotent].
      * exists ([CallInWaiting; CallReadline] ++ new)%list. simpl.
        rewrite <- !app_assoc. simpl. repeat split.
        -- count_events.
        -- count_events.
        -- exact Hc.
      * exists ([CallInWaiting; CallReadline] ++ new)%list. simpl.
        rewrite <- !app_assoc. simpl. repeat split.
        -- count_events.
        -- count_events.
        -- exact Hc.
Qed.

Lemma estimated_lines_bounds (bytes_available : Z) :
  (1 <= estimated_lines bytes_available <= 10)%nat.
Proof. unfold estimated_lines. lia. Qed.

Lemma check_timeout_frame (cfg : Config) (t : Q) (s : State) :
  trace (_check_polling_timeout cfg t s) = trace s
  /\ running (_check_polling_timeout cfg t s) = running s.
Proof.
  unfold _check_polling_timeout.
  destruct (status_polling_paused s); [|split; reflexivity].
  destruct (Qge_bool _ _); split; reflexivity.
Qed.

Lemma send_status_frame (cfg : Config) (t : Q) (s : State) :
  trace (_send_status_requests cfg t s) = trace s
  /\ running (_send_status_requests cfg t s) = running s
  /\ status_polling_paused (_send_status_requests cfg t s)
     = status_polling_paused s.
Proof.
  unfold _send_status_requests.
  destruct (status_polling_paused s) eqn:E; [repeat split; exact E|].
  destruct (Qgt_bool _ _); simpl; destruct (Qgt_bool _ _); simpl;
    repeat split; exact E.
Qed.

(** What the write step adds to the trace: nothing, the write, or the
    write and the disconnect event. *)
Lemma process_command_queue_events (ok : bool) (t : Q) (s : State) :
  exists new : list io_event,
    trace (_process_command_queue ok t s) = (trace s ++ new)%list
    /\ (occurrences is_write_internal new <= 1)%nat
    /\ occurrences is_readline new = 0%nat
    /\ Forall clean (emitted new).
Proof.
  unfold _process_command_queue.
  destruct (get_next_command (serial_manager s)) as [[c|] mgr].
  2:{ exists []. simpl. rewrite app_nil_r. settle_events. }
  destruct (truthy c).
  2:{ exists []. simpl. rewrite app_nil_r. settle_events. }
  destruct ok; simpl.
  - exists [CallWriteInternal c].
    destruct (is_blocking _); simpl; settle_events.
  - exists [CallWriteInternal c; SignalEmit DISCONNECTED]. simpl.
    rewrite <- app_assoc. settle_events.
Qed.

(** X1. One call of [_read_serial_data] reads at most
    [max(1, min(10, bytes_available // 30))] lines, hence never more than
    ten, however much the handle has buffered; and it writes nothing. *)
Theorem read_batch_is_bounded
  (cfg : Config) (bytes_available : Z) (rx : list rx_step) (t : Q) (s : State) :
  exists new : list io_event,
    trace (_read_serial_data cfg bytes_available rx t s) = (trace s ++ new)%list
    /\ (occurrences is_readline new <= estimated_lines bytes_available)%nat
    /\ (occurrences is_readline new <= 10)%nat
    /\ occurrences is_write_internal new = 0%nat.
Proof.
  unfold _read_serial_data. destruct (bytes_available =? 0)%Z.
  - exists []. rewrite app_nil_r. settle_events.
  - destruct (read_lines_events cfg t (estimated_lines bytes_available) rx s)
      as (new & Ht & Hr & Hw & _).
    exists new. pose proof (estimated_lines_bounds bytes_available).
    repeat split; try assumption. lia.
Qed.

(** What one iteration adds to the trace. *)
Lemma run_body_events (cfg : Config) (it : iteration) (s : State) :
  exists new : list io_event,
    trace (fst (run_body cfg it s)) = (trace s ++ new)%list
    /\ (occurrences is_write_internal new <= 1)%nat
    /\ (occurrences is_readline new <= 10)%nat
    /\ Forall clean (emitted new).
Proof.
  unfold run_body. destruct (it_open it); simpl.
  2:{ exists []. rewrite app_nil_r. settle_events. }
  destruct (it_probe it) as [bytes_available|]; simpl.
  2:{ exists [CallInWaiting; SignalEmit DISCONNECTED].
      rewrite <- app_assoc. settle_events. }
  destruct (process_command_queue_events (it_write_ok it) (it_now it)
              (log CallInWaiting s)) as (n1 & H1 & W1 & R1 & C1).
  set (s1 := _process_command_queue _ _ _) in *.
  set (s2 := _check_polling_timeout cfg (it_now it) s1).
  set (s3 := _send_status_requests cfg (it_now it) s2).
  assert (H3 : trace s3 = trace s1).
  { subst s3 s2. rewrite (proj1 (send_status_frame _ _ _)).
    apply check_timeout_frame. }
  unfold _read_serial_data. destruct (bytes_available =? 0)%Z.
  - exists (CallInWaiting :: n1). rewrite H3, H1. simpl.
    rewrite <- app_assoc. simpl. repeat split; try assumption; count_events.
  - destruct (read_lines_events cfg (it_now it)
                (estimated_lines bytes_available) (it_rx it) s3)
      as (n2 & H2 & R2 & W2 & C2).
    pose proof (estimated_lines_bounds bytes_available).
    exists (CallInWaiting :: n1 ++ n2)%list. rewrite H2, H3, H1. simpl.
    rewrite <- !app_assoc. simpl. repeat split.
    + change (CallInWaiting :: n1 ++ n2)%list
        with ((CallInWaiting :: n1) ++ n2)%list.
      rewrite occurrences_app. count_events.
    + change (CallInWaiting :: n1 ++ n2)%list
        with ((CallInWaiting :: n1) ++ n2)%list.
      rewrite occurrences_app. count_events.
    + rewrite emitted_app. apply Forall_app. now split.
Qed.

(** X2. In an iteration of the loop at most one command is written to
    the handle and at most ten lines are read from it. *)
Theorem iteration_io_is_bounded (cfg : Config) (it : iteration) (s : State) :
  exists new : list io_event,
    trace (fst (run_body cfg it s)) = (trace s ++ new)%list
    /\ (occurrences is_write_internal new <= 1)%nat
    /\ (occurrences is_readline new <= 10)%nat.
Proof.
  destruct (run_body_events cfg it s) as (new & H & W & R & _).
  now exists new.
Qed.

(** X3. Whatever the outside world answers and for however many
    iterations the loop runs, every text it emits on [serialSignal] is
    non-empty and free of surrounding white space. *)
Theorem emitted_texts_are_clean (cfg : Config) (its : list iteration) :
  forall s : State,
  exists new : list io_event,
    trace (run cfg its s) = (trace s ++ new)%list
    /\ Forall clean (emitted new).
Proof.
  induction its as [|it its IH]; intro s; simpl.
  - exists []. rewrite app_nil_r. now split.
  - destruct (running s).
    2:{ exists []. rewrite app_nil_r. now split. }
    destruct (run_body_events cfg it s) as (n1 & H1 & _ & _ & C1).
    destruct (run_body cfg it s) as [s' broke]. simpl in H1.
    destruct broke.
    + now exists n1.
    + destruct (IH s') as (n2 & H2 & C2).
      exists (n1 ++ n2)%list. rewrite H2, H1, <- app_assoc.
      split; [reflexivity|]. rewrite emitted_app. apply Forall_app. now split.
Qed.

(** A batch of reads that ends in the Paused state began in it and
    left the channel alone. *)
Lemma read_lines_still_paused (cfg : Config) (t : Q) :
  forall (n : nat) (rx : list rx_step) (s : State),
    status_polling_paused (read_lines cfg n rx t s) = true ->
    status_polling_paused s = true
    /\ serial_manager (read_lines cfg n rx t s) = serial_manager s.
Proof.
  induction n as [|n IH]; intros rx s; [now split|].
  destruct rx as [|step rx']; [now split|].
  simpl. destruct (rx_waiting step) as [w|]; [|now split].
  destruct (w =? 0)%Z; [now split|].
  destruct (rx_line step) as [data_bytes|]; [|now split].
  intro H. apply IH in H. destruct H as [Hp Hm]. rewrite Hm. clear Hm.
  destruct (truthy data_bytes); [destruct (truthy (strip data_bytes))|];
    try (now split).
  pose proof (check_complete_still_paused _ _ _ _ Hp) as E.
  rewrite E in Hp. rewrite E. now split.
Qed.

Lemma check_timeout_still_paused (cfg : Config) (t : Q) (s : State) :
  status_polling_paused (_check_polling_timeout cfg t s) = true ->
  _check_polling_timeout cfg t s = s.
Proof.
  unfold _check_polling_timeout.
  destruct (status_polling_paused s); [|reflexivity].
  destruct (Qge_bool _ _); [discriminate | reflexivity].
Qed.

Lemma process_command_queue_manager (ok : bool) (t : Q) (s : State) :
  serial_manager (_process_command_queue ok t s)
  = snd (get_next_command (serial_manager s)).
Proof.
  unfold _process_command_queue.
  destruct (get_next_command (serial_manager s)) as [[c|] mgr];
    [|reflexivity].
  destruct (truthy c); [|reflexivity].
  destruct ok; simpl; [|reflexivity].
  destruct (is_blocking _); reflexivity.
Qed.

(** The state in which the write step must have left an iteration that
    ends Paused. *)
Lemma paused_iteration (cfg : Config) (it : iteration) (s : State)
  (bytes_available : Z) :
  it_open it = true -> it_probe it = Returned bytes_available ->
  status_polling_paused (fst (run_body cfg it s)) = true ->
  let s1 := _process_command_queue (it_write_ok it) (it_now it)
              (log CallInWaiting s) in
  status_polling_paused s1 = true
  /\ serial_manager (fst (run_body cfg it s)) = serial_manager s1.
Proof.
  intros Ho Hp. unfold run_body. rewrite Ho, Hp. simpl.
  set (s1 := _process_command_queue _ _ _).
  set (s2 := _check_polling_timeout cfg (it_now it) s1).
  set (s3 := _send_status_requests cfg (it_now it) s2).
  intro H.
  assert (H3 : status_polling_paused s3 = true
               /\ serial_manager (_read_serial_data cfg bytes_available
                                    (it_rx it) (it_now it) s3)
                  = serial_manager s3).
  { unfold _read_serial_data in *. destruct (bytes_available =? 0)%Z.
    - now split.
    - now apply read_lines_still_paused. }
  destruct H3 as [P3 M3]. rewrite M3.
  assert (P2 : status_polling_paused s2 = true).
  { subst s3. now rewrite (proj2 (proj2 (send_status_frame _ _ _))) in P3. }
  assert (E3 : s3 = s2) by (subst s3; now apply paused_send_status_requests).
  assert (E2 : s2 = s1) by (subst s2; now apply check_timeout_still_paused).
  rewrite E3, E2. rewrite E2 in P2. now split.
Qed.

(** X4. The polling state goes from Active to Paused in an iteration
    only when that iteration dequeues a command whose stripped, uppercased
    text starts with a blocking prefix and writes it successfully. *)
Theorem pause_begins_only_with_blocking_write
  (cfg : Config) (it : iteration) (s : State) :
  status_polling_paused s = false ->
  status_polling_paused (fst (run_body cfg it s)) = true ->
  it_write_ok it = true
  /\ exists (command : string) (mgr : SerialManager),
       get_next_command (serial_manager s) = (Some command, mgr)
       /\ is_blocking (upper (strip command)) = true.
Proof.
  intros Hs H.
  destruct (it_open it) eqn:Ho.
  2:{ unfold run_body in H. rewrite Ho in H. simpl in H. congruence. }
  destruct (it_probe it) as [b|] eqn:Hp.
  2:{ unfold run_body in H. rewrite Ho, Hp in H. simpl in H. congruence. }
  destruct (paused_iteration cfg it s b Ho Hp H) as [P1 _]. clear H.
  unfold _process_command_queue in P1. simpl serial_manager in P1.
  destruct (get_next_command (serial_manager s)) as [[c|] mgr];
    [|simpl in P1; congruence].
  destruct (truthy c); [|simpl in P1; congruence].
  destruct (it_write_ok it); simpl in P1; [|congruence].
  destruct (is_blocking (upper (strip c))) eqn:Hb; [|simpl in P1; congruence].
  split; [reflexivity|]. now exists c, mgr.
Qed.

Lemma pause_begins_only_with_blocking_write_witness :
  it_write_ok (quiet_iteration 100) = true
  /\ exists (command : string) (mgr : SerialManager),
       get_next_command (serial_manager (init homing_queued 100))
       = (Some command, mgr)
       /\ is_blocking (upper (strip command)) = true.
Proof.
  apply (pause_begins_only_with_blocking_write sample_config
           (quiet_iteration 100) (init homing_queued 100));
    reflexivity.
Defined.

(** X5. An iteration that ends in the Paused state has enqueued no
    request: each lane is what was left of it once the iteration had
    taken its command, at most one, from the channel. *)
Theorem paused_iteration_enqueues_nothing
  (cfg : Config) (it : iteration) (s : State) :
  status_polling_paused (fst (run_body cfg it s)) = true ->
  let s' := fst (run_body cfg it s) in
  (exists taken : list string,
     priority_lane (serial_manager s)
     = (taken ++ priority_lane (serial_manager s'))%list
     /\ (List.length taken <= 1)%nat)
  /\ (exists taken : list string,
        normal_lane (serial_manager s)
        = (taken ++ normal_lane (serial_manager s'))%list
        /\ (List.length taken <= 1)%nat).
Proof.
  intros H s'. subst s'.
  assert (Hm : serial_manager (fst (run_body cfg it s)) = serial_manager s
               \/ serial_manager (fst (run_body cfg it s))
                  = snd (get_next_command (serial_manager s))).
  { destruct (it_open it) eqn:Ho.
    2:{ left. unfold run_body. now rewrite Ho. }
    destruct (it_probe it) as [b|] eqn:Hp.
    2:{ left. unfold run_body. now rewrite Ho, Hp. }
    right. destruct (paused_iteration cfg it s b Ho Hp H) as [_ M].
    rewrite M. exact (process_command_queue_manager _ _ (log CallInWaiting s)). }
  destruct Hm as [-> | ->].
  - split; exists []; simpl; auto.
  - unfold get_next_command.
    destruct (priority_lane (serial_manager s)) as [|c rest] eqn:Ep.
    + destruct (normal_lane (serial_manager s)) as [|c rest] eqn:En; simpl.
      * rewrite Ep, En. split; exists []; simpl; auto.
      * split; [exists [] | exists [c]]; simpl; auto.
    + simpl. split; [exists [c] | exists []]; simpl; auto.
Qed.

Lemma paused_iteration_enqueues_nothing_witness :
  let s' := fst (run_body sample_config (quiet_iteration 100)
                   (init homing_queued 100)) in
  status_polling_paused s' = true
  /\ (exists taken : list string,
        priority_lane (serial_manager (init homing_queued 100))
        = (taken ++ priority_lane (serial_manager s'))%list
        /\ (List.length taken <= 1)%nat)
  /\ (exists taken : list string,
        normal_lane (serial_manager (init homing_queued 100))
        = (taken ++ normal_lane (serial_manager s'))%list
        /\ (List.length taken <= 1)%nat).
Proof.
  intro s'. split; [reflexivity|].
  exact (paused_iteration_enqueues_nothing sample_config
           (quiet_iteration 100) (init homing_queued 100) eq_refl).
Defined.

(** X7. When the write of a dequeued command fails, the step emits the
    disconnect marker once, clears the running flag, and neither pauses
    polling nor puts the command back: the polling state and the pause
    start are as before, and the channel is what the dequeue left. *)
Theorem failed_write_stops_the_loop
  (t : Q) (s : State) (command : string) (mgr : SerialManager) :
  get_next_command (serial_manager s) = (Some command, mgr) ->
  truthy command = true ->
  let s' := _process_command_queue false t s in
  running s' = false
  /\ trace s'
     = (trace s ++ [CallWriteInternal command; SignalEmit DISCONNECTED])%list
  /\ status_polling_paused s' = status_polling_paused s
  /\ blocking_command_start_time s' = blocking_command_start_time s
  /\ serial_manager s' = mgr.
Proof.
  intros Hq Ht. unfold _process_command_queue. rewrite Hq, Ht. simpl.
  rewrite <- app_assoc. repeat split.
Qed.

Lemma failed_write_stops_the_loop_witness :
  let s' := _process_command_queue false 100 (init homing_queued 100) in
  running s' = false
  /\ trace s'
     = [CallWriteInternal ("g28" ++ LF); SignalEmit DISCONNECTED]
  /\ status_polling_paused s' = false.
Proof.
  intro s'.
  destruct (failed_write_stops_the_loop 100 (init homing_queued 100)
              ("g28" ++ LF) (set_lanes [] [] homing_queued) eq_refl eq_refl)
    as (H1 & H2 & H3 & _).
  split; [exact H1|]. split; [exact H2 | exact H3].
Defined.

(** X8. Whether a written command pauses polling does not depend on the
    case of its letters: two commands with the same uppercase text leave
    the same polling state. *)
Theorem blocking_detection_ignores_case
  (t : Q) (s1 s2 : State) (c1 c2 : string) (m1 m2 : SerialManager) :
  get_next_command (serial_manager s1) = (Some c1, m1) ->
  get_next_command (serial_manager s2) = (Some c2, m2) ->
  upper c1 = upper c2 ->
  status_polling_paused s1 = status_polling_paused s2 ->
  status_polling_paused (_process_command_queue true t s1)
  = status_polling_paused (_process_command_queue true t s2).
Proof.
  intros H1 H2 Hu Hp. unfold _process_command_queue. rewrite H1, H2.
  assert (Ht : truthy c1 = truthy c2).
  { destruct c1, c2; try reflexivity; discriminate. }
  rewrite Ht. destruct (truthy c2); [|exact Hp]. simpl negb. cbv iota.
  rewrite <- !strip_upper, Hu.
  destruct (is_blocking _); [reflexivity | exact Hp].
Qed.

Lemma blocking_detection_ignores_case_witness :
  status_polling_paused
    (_process_command_queue true 100 (init homing_queued 100))
  = status_polling_paused
      (_process_command_queue true 100
         (init (mkSerialManager true [] ["G28" ++ LF] None None None) 100)).
Proof.
  apply (blocking_detection_ignores_case 100
           (init homing_queued 100)
           (init (mkSerialManager true [] ["G28" ++ LF] None None None) 100)
           ("g28" ++ LF) ("G28" ++ LF)
           (set_lanes [] [] homing_queued)
           (set_lanes [] []
              (mkSerialManager true [] ["G28" ++ LF] None None None)));
    reflexivity.
Defined.

Lemma Qgt_bool_true (a b : Q) : Qgt_bool a b = true <-> b < a.
Proof. exact (Qlt_bool_true b a). Qed.

Lemma Qgt_bool_false (a b : Q) : Qgt_bool a b = false <-> a <= b.
Proof. exact (Qlt_bool_false b a). Qed.

Lemma queued_snoc (cmd other : string) (lane : list string) :
  queued cmd (lane ++ [other])
  = (queued cmd lane + if string_dec other cmd then 1 else 0)%nat.
Proof.
  unfold queued. rewrite count_occ_app. simpl.
  destruct (string_dec other cmd); reflexivity.
Qed.

(** X9. In the Active state a position request that is due is queued
    once, and no other is queued by a later call made within the
    position interval of it; the same holds of the endstop request and
    its own interval. *)
Theorem status_requests_are_spaced
  (cfg : Config) (t t' : Q) (s : State) :
  status_polling_paused s = false ->
  let s1 := _send_status_requests cfg t s in
  let s2 := _send_status_requests cfg t' s1 in
  (SERIAL_STATUS_REQUEST_INTERVAL cfg < t - elapsed_time s ->
   t' - t <= SERIAL_STATUS_REQUEST_INTERVAL cfg ->
   queued M114 (priority_lane (serial_manager s1))
   = S (queued M114 (priority_lane (serial_manager s)))
   /\ queued M114 (priority_lane (serial_manager s2))
      = queued M114 (priority_lane (serial_manager s1)))
  /\ (SERIAL_ENDSTOP_REQUEST_INTERVAL cfg < t - endstop_check_time s ->
      t' - t <= SERIAL_ENDSTOP_REQUEST_INTERVAL cfg ->
      queued M119 (priority_lane (serial_manager s1))
      = S (queued M119 (priority_lane (serial_manager s)))
      /\ queued M119 (priority_lane (serial_manager s2))
         = queued M119 (priority_lane (serial_manager s1))).
Proof.
  intros Hp s1 s2.
  assert (P1 : status_polling_paused s1 = false).
  { subst s1. now rewrite (proj2 (proj2 (send_status_frame _ _ _))). }
  split; intros Hdue Hnear;
    apply Qgt_bool_true in Hdue; apply Qgt_bool_false in Hnear.
  - assert (E1 : elapsed_time s1 = t
                 /\ queued M114 (priority_lane (serial_manager s1))
                    = S (queued M114 (priority_lane (serial_manager s)))).
    { subst s1. unfold _send_status_requests. rewrite Hp, Hdue.
      cbv zeta. unfold enqueue_priority, write. simpl.
      destruct (Qgt_bool (t - endstop_check_time s)
                  (SERIAL_ENDSTOP_REQUEST_INTERVAL cfg)); simpl;
        rewrite ?queued_snoc; simpl; split; try reflexivity; lia. }
    destruct E1 as [E1 Q1]. split; [exact Q1|].
    subst s2. unfold _send_status_requests at 1. rewrite P1, E1, Hnear.
    cbv zeta. unfold enqueue_priority, write.
    destruct (Qgt_bool (t' - endstop_check_time s1)
                (SERIAL_ENDSTOP_REQUEST_INTERVAL cfg)); simpl;
      rewrite ?queued_snoc; simpl; lia.
  - assert (E1 : endstop_check_time s1 = t
                 /\ queued M119 (priority_lane (serial_manager s1))
                    = S (queued M119 (priority_lane (serial_manager s)))).
    { subst s1. unfold _send_status_requests. rewrite Hp.
      cbv zeta. unfold enqueue_priority, write.
      destruct (Qgt_bool (t - elapsed_time s)
                  (SERIAL_STATUS_REQUEST_INTERVAL cfg)); simpl;
        rewrite Hdue; simpl; rewrite ?queued_snoc; simpl;
        split; try reflexivity; lia. }
    destruct E1 as [E1 Q1]. split; [exact Q1|].
    subst s2. unfold _send_status_requests at 1. rewrite P1.
    cbv zeta. unfold enqueue_priority, write.
    destruct (Qgt_bool (t' - elapsed_time s1)
                (SERIAL_STATUS_REQUEST_INTERVAL cfg)); simpl;
      rewrite E1, Hnear; simpl; rewrite ?queued_snoc; simpl; lia.
Qed.

Lemma status_requests_are_spaced_witness :
  let s := init homing_queued 100 in
  let s1 := _send_status_requests sample_config 101 s in
  let s2 := _send_status_requests sample_config (101 + (5#100)) s1 in
  queued M114 (priority_lane (serial_manager s1)) = 1%nat
  /\ queued M114 (priority_lane (serial_manager s2)) = 1%nat
  /\ queued M119 (priority_lane (serial_manager s2)) = 1%nat.
Proof.
  intros s s1 s2.
  destruct (status_requests_are_spaced sample_config 101 (101 + (5#100)) s
              eq_refl) as [Hpos Hend].
  destruct Hpos as [H1 H2]; [reflexivity | vm_compute; discriminate |].
  destruct Hend as [H3 H4]; [reflexivity | vm_compute; discriminate |].
  fold s1 in H1, H2, H3, H4. fold s2 in H2, H4.
  split; [exact H1|]. split; [now rewrite H2 | now rewrite H4, H3].
Defined.

(** X10. A line received from the device whose stripped text is the
    disconnect marker is emitted as that marker, like a disconnect event
    of the loop itself; the running flag and the polling state are left
    as they were, so the loop goes on. *)
Theorem received_marker_is_emitted
  (cfg : Config) (step : rx_step) (rx : list rx_step) (t : Q) (s : State)
  (w : Z) (line : string) :
  rx_waiting step = Returned w -> w <> 0%Z ->
  rx_line step = Returned line ->
  strip line = DISCONNECTED ->
  let s' := read_lines cfg 1 (step :: rx) t s in
  trace s'
  = (trace s ++ [CallInWaiting; CallReadline; SignalEmit DISCONNECTED])%list
  /\ running s' = running s
  /\ status_polling_paused s' = status_polling_paused s.
Proof.
  intros Hw Hnz Hl Hs. simpl. rewrite Hw, Hl.
  apply Z.eqb_neq in Hnz. rewrite Hnz.
  assert (Ht : truthy line = true).
  { destruct line; [discriminate | reflexivity]. }
  rewrite Ht, Hs. simpl truthy. cbv iota.
  unfold _check_blocking_command_complete.
  destruct (status_polling_paused s) eqn:Hp; simpl;
    rewrite ?Hp; simpl; rewrite <- ?app_assoc; repeat split; exact Hp.
Qed.

Lemma received_marker_is_emitted_witness :
  let s' := read_lines sample_config 1 [marker_read] 100
              (init homing_queued 100) in
  trace s' = [CallInWaiting; CallReadline; SignalEmit DISCONNECTED]
  /\ running s' = true.
Proof.
  intro s'.
  destruct (received_marker_is_emitted sample_config marker_read [] 100
              (init homing_queued 100) 21
              (" SERIAL-DISCONNECTED" ++ LF) eq_refl)
    as (H1 & H2 & _); try reflexivity.
  - discriminate.
  - split; [exact H1 | exact H2].
Defined.

Lemma probe_failure_is_terminal_witness :
  run sample_config [failed_probe_iteration; quiet_iteration 101]
    (init homing_queued 100)
  = log (SignalEmit DISCONNECTED) (log CallInWaiting (init homing_queued 100)).
Proof.
  apply (probe_failure_is_terminal sample_config failed_probe_iteration
           [quiet_iteration 101] (init homing_queued 100));
    reflexivity.
Defined.








(** X28. When [inWaiting()] or [readline()] raises in a batch, after any
    number of lines read in it, the batch stops there: the state is the
    one the lines read so far have left, with the failing call and then
    the disconnect marker added to the trace and the running flag
    cleared.  What the handle still holds is not read, whatever it is
    and however many turns the batch had left, and [run] performs no
    further iteration. *)
Theorem read_failure_ends_the_batch
  (cfg : Config) (good : list rx_step) (bad : rx_step) (rest : list rx_step)
  (t : Q) (its : list iteration) :
  forallb good_read good = true ->
  failing_read bad = true ->
  forall (n : nat) (s : State),
    (List.length good < n)%nat ->
    let s0 := read_lines cfg (List.length good) good t s in
    let s' := read_lines cfg n (good ++ bad :: rest) t s in
    s' = read_failed (log_all (failing_calls bad) s0)
    /\ trace s'
       = (trace s0 ++ failing_calls bad ++ [SignalEmit DISCONNECTED])%list
    /\ running s' = false
    /\ run cfg its s' = s'.
Proof.
  intros Hgood Hbad.
  assert (Heq : forall (n : nat) (s : State),
            (List.length good < n)%nat ->
            read_lines cfg n (good ++ bad :: rest) t s
            = read_failed
                (log_all (failing_calls bad)
                   (read_lines cfg (List.length good) good t s))).
  { induction good as [|g good IH]; intros n s Hn.
    - destruct n as [|n]; [lia|]. simpl.
      unfold failing_read, failing_calls in *.
      destruct (rx_waiting bad) as [w|]; [|reflexivity].
      apply andb_true_iff in Hbad as [Hw Hl].
      apply negb_true_iff in Hw. rewrite Hw.
      destruct (rx_line bad); [discriminate | reflexivity].
    - destruct n as [|n]; [simpl in Hn; lia|].
      simpl in Hgood. apply andb_true_iff in Hgood as [Hg Hgood].
      unfold good_read in Hg.
      simpl. destruct (rx_waiting g) as [w|]; [|discriminate].
      destruct (rx_line g) as [data_bytes|]; [|discriminate].
      apply negb_true_iff in Hg. rewrite Hg.
      apply (IH Hgood). simpl in Hn. lia. }
  intros n s Hn s0 s'. subst s0 s'. rewrite (Heq n s Hn).
  assert (Ht : forall ev x,
            trace (log_all ev x) = (trace x ++ ev)%list).
  { induction ev as [|e ev IHev]; intro x; simpl.
    - now rewrite app_nil_r.
    - rewrite IHev. simpl. now rewrite <- app_assoc. }
  repeat split.
  - unfold read_failed. simpl. rewrite Ht. now rewrite <- app_assoc.
  - now apply stopped_loop_is_inert.
Qed.

Lemma read_failure_ends_the_batch_witness :
  let s' := read_lines sample_config 5
              [ok_read; failed_readline; marker_read] 100
              (init homing_queued 100) in
  trace s'
  = [CallInWaiting; CallReadline; SignalEmit "ok";
     CallInWaiting; CallReadline; SignalEmit DISCONNECTED]
  /\ running s' = false
  /\ run sample_config [quiet_iteration 101] s' = s'.
Proof.
  intro s'. subst s'.
  destruct (read_failure_ends_the_batch sample_config [ok_read]
              failed_readline [marker_read] 100 [quiet_iteration 101]
              eq_refl eq_refl 5 (init homing_queued 100))
    as (_ & H2 & H3 & H4).
  - simpl. lia.
  - split; [exact H2|]. split; [exact H3 | exact H4].
Defined.

End LoopFacts.

(* ================================================================== *)
(** * More on the response router                                      *)
(* ================================================================== *)

Section RoutingFacts.
Import Router.
Variable pp : ParsingPatterns.

Ltac route_by_cases data :=
  unfold route_response, _handle_position, _handle_endstop,
    _handle_disconnect, _check_homing_completion, invoke;
  destruct (identify_response_type pp data) eqn:?; simpl;
  repeat match goal with
         | |- context [Qlt_bool ?a ?b] => destruct (Qlt_bool a b) eqn:?; simpl
         end.

(** X11. A line is classified Disconnect exactly when it is the marker,
    whatever the recognisers answer on it. *)
Theorem disconnect_is_the_marker (data : string) :
  identify_response_type pp data = DISCONNECT <-> data = DISCONNECT_MARKER.
Proof.
  unfold identify_response_type.
  destruct (String.eqb_spec data DISCONNECT_MARKER) as [E | E].
  - tauto.
  - split; [|contradiction].
    destruct (is_m114_response pp data), (is_m119_response pp data),
      (is_ok_response pp data); discriminate.
Qed.

(** X12. Routing the marker calls the disconnect handler, once if it is
    registered, and nothing else, not even the homing callbacks while
    homing; the result is Disconnect, handled and hidden, inside the
    manual-command window as outside. *)
Theorem marker_is_routed_to_disconnect
  (r : SerialResponseRouter) (now : Q) (homing : bool)
  (verbose_show ok_show sync_pending : bool) :
  route_response pp r now homing DISCONNECT_MARKER
    verbose_show ok_show sync_pending
  = (mkResult DISCONNECT true false None,
     if has_disconnect_handler r then [disconnect_handler] else []).
Proof.
  unfold route_response.
  rewrite (proj2 (disconnect_is_the_marker DISCONNECT_MARKER) eq_refl).
  reflexivity.
Qed.

Lemma in_invoke (registered : bool) (c c' : call) :
  In c (invoke registered c') -> registered = true /\ c' = c.
Proof.
  destruct registered; simpl; [|tauto].
  intros [H | []]. now split.
Qed.

Ltac read_calls :=
  repeat match goal with
         | H : In _ (_ ++ _) |- _ => apply in_app_or in H; destruct H
         | H : In _ (invoke _ _) |- _ => apply in_invoke in H; destruct H
         | H : In _ (if ?b then _ else _) |- _ => destruct b eqn:?
         | H : In _ [] |- _ => destruct H
         | H : In _ (_ :: _) |- _ => destruct H
         | H : False |- _ => destruct H
         | H : _ \/ _ |- _ => destruct H
         | H : (if ?b then _ else _) = true |- _ => destruct b eqn:?
         end.

(** X13. The homing callbacks are called for no other line than one
    classified Ok, routed while a registered [get_is_homing] answers
    true. *)
Theorem homing_calls_need_ok_while_homing
  (r : SerialResponseRouter) (now : Q) (homing : bool) (data : string)
  (verbose_show ok_show sync_pending : bool) (c : call) :
  In c [set_homing_complete; request_position_update; set_sync_pending] ->
  In c (snd (route_response pp r now homing data
               verbose_show ok_show sync_pending)) ->
  identify_response_type pp data = OK
  /\ homing = true
  /\ has_get_is_homing r = true.
Proof.
  intros Hc.
  unfold route_response, _handle_position, _handle_endstop,
    _handle_disconnect, _check_homing_completion.
  destruct (identify_response_type pp data) eqn:Hty; simpl;
    destruct (Qlt_bool (now - _last_manual_command_time r)
                (_manual_command_display_duration r)); simpl;
    intro H; simpl in Hc; read_calls; subst;
    try discriminate; try congruence;
    repeat split; try reflexivity;
    match goal with
    | E : (if has_get_is_homing r then homing else false) = true |- _ =>
        destruct (has_get_is_homing r), homing; try discriminate; reflexivity
    end.
Qed.

(** X14. The type in the result is always the classification of the
    line, on every path through the router. *)
Theorem result_type_is_the_classification
  (r : SerialResponseRouter) (now : Q) (homing : bool) (data : string)
  (verbose_show ok_show sync_pending : bool) :
  response_type
    (fst (route_response pp r now homing data
            verbose_show ok_show sync_pending))
  = identify_response_type pp data.
Proof. route_by_cases data; reflexivity. Qed.

(** X15. The position handler is called only with the routed line
    itself, only when that line is classified Position, and only outside
    the manual-command window; likewise the endstop handler for Endstop
    lines; and sync-trigger is called only for a Position line routed
    outside the window with [sync_pending] set. *)
Theorem handlers_get_their_own_lines
  (r : SerialResponseRouter) (now : Q) (homing : bool) (data : string)
  (verbose_show ok_show sync_pending : bool) :
  let calls :=
    snd (route_response pp r now homing data
           verbose_show ok_show sync_pending) in
  (forall d, In (position_handler d) calls ->
             d = data
             /\ identify_response_type pp data = POSITION
             /\ _manual_command_display_duration r
                <= now - _last_manual_command_time r)
  /\ (forall d, In (endstop_handler d) calls ->
                d = data
                /\ identify_response_type pp data = ENDSTOP
                /\ _manual_command_display_duration r
                   <= now - _last_manual_command_time r)
  /\ (In trigger_sync calls ->
      sync_pending = true
      /\ identify_response_type pp data = POSITION
      /\ _manual_command_display_duration r
         <= now - _last_manual_command_time r).
Proof.
  unfold route_response, _handle_position, _handle_endstop,
    _handle_disconnect, _check_homing_completion.
  destruct (identify_response_type pp data) eqn:Hc; simpl;
    destruct (Qlt_bool (now - _last_manual_command_time r)
                (_manual_command_display_duration r)) eqn:Hw; simpl;
    try apply Qlt_bool_false in Hw;
    repeat split; intros; read_calls; subst;
    try discriminate; try congruence; try assumption;
    match goal with
    | E : (_ && _)%bool = true |- _ =>
        apply andb_true_iff in E; destruct E; assumption
    end.
Qed.

(** X16. Which lines reach the console: a routed line is shown exactly
    when it is not the marker and either the manual-command window is
    open, or it is classified Other, or it is a Position line and
    [verbose_show] is set, or it is an Ok line and [ok_show] is set. *)
Theorem console_visibility
  (r : SerialResponseRouter) (now : Q) (homing : bool) (data : string)
  (verbose_show ok_show sync_pending : bool) :
  show_in_console
    (fst (route_response pp r now homing data
            verbose_show ok_show sync_pending))
  = negb (ResponseType_eqb (identify_response_type pp data) DISCONNECT)
    && (Qlt_bool (now - _last_manual_command_time r)
                 (_manual_command_display_duration r)
        || match identify_response_type pp data with
           | OTHER => true
           | POSITION => verbose_show
           | OK => ok_show
           | _ => false
           end).
Proof. route_by_cases data; reflexivity. Qed.

(** X17. Once the manual-command window has elapsed, the mark has no
    effect left: a router marked at [sent] routes a line as the same
    router does unmarked, provided neither is in its window. *)
Theorem elapsed_window_is_forgotten
  (r : SerialResponseRouter) (sent now : Q) (homing : bool) (data : string)
  (verbose_show ok_show sync_pending : bool) :
  _manual_command_display_duration r <= now - sent ->
  _manual_command_display_duration r <= now - _last_manual_command_time r ->
  route_response pp (mark_manual_command_sent sent r) now homing data
    verbose_show ok_show sync_pending
  = route_response pp r now homing data verbose_show ok_show sync_pending.
Proof.
  intros Hs Hr. apply Qlt_bool_false in Hs, Hr.
  unfold route_response, _handle_position, _handle_endstop,
    _handle_disconnect, _check_homing_completion. simpl.
  rewrite Hs, Hr. reflexivity.
Qed.

End RoutingFacts.

Section RoutingFactsSamples.
Import Router.

Lemma homing_calls_need_ok_while_homing_witness :
  identify_response_type sample_patterns "ok" = OK
  /\ true = true
  /\ has_get_is_homing full_router = true.
Proof.
  apply (homing_calls_need_ok_while_homing sample_patterns full_router
           1000 true "ok" false false false set_sync_pending).
  - simpl. tauto.
  - simpl. tauto.
Defined.

Lemma elapsed_window_is_forgotten_witness :
  route_response sample_patterns (mark_manual_command_sent 100 full_router)
    1000 false sample_position_report false false true
  = route_response sample_patterns full_router
      1000 false sample_position_report false false true.
Proof.
  apply (elapsed_window_is_forgotten sample_patterns full_router 100 1000
           false sample_position_report false false true);
    vm_compute; discriminate.
Defined.

Lemma disconnect_is_the_marker_witness :
  identify_response_type sample_patterns "SERIAL-DISCONNECTED" = DISCONNECT.
Proof.
  apply (proj2 (disconnect_is_the_marker sample_patterns
                  "SERIAL-DISCONNECTED")).
  reflexivity.
Defined.

Lemma handlers_get_their_own_lines_witness :
  sample_position_report = sample_position_report
  /\ identify_response_type sample_patterns sample_position_report = POSITION
  /\ _manual_command_display_duration full_router
     <= 1000 - _last_manual_command_time full_router.
Proof.
  destruct (handlers_get_their_own_lines sample_patterns full_router 1000
              false sample_position_report false false true)
    as [Hpos _].
  apply (Hpos sample_position_report). simpl. tauto.
Defined.

End RoutingFactsSamples.

(* ================================================================== *)
(** * More on the connection life cycle                                *)
(* ================================================================== *)

Section LifecycleFacts.
Import Channel ConnectionManager.

Ltac run_teardown :=
  unfold disconnect, try_except, disconnect_attempt, stop_thread,
    bind, call, modify, raise, ret, on_exception, _set_state, emit,
    set_current, set_thread, update_serial_manager;
  simpl.

Ltac split_teardown :=
  match goal with
  | |- context [match ?x with _ => _ end] =>
      match type of x with
      | option _ => destruct x
      | bool => destruct x
      end
  end.

(** A teardown that does not raise, step by step. *)
Lemma disconnect_clean (td : Teardown) (m : Manager) :
  teardown_raises td m = false ->
  disconnect td m
  = emit disconnected
      (_set_state DISCONNECTED
         (set_current None None
            (set_thread None (update_serial_manager (set_open false) m)))).
Proof.
  unfold teardown_raises. destruct td as [tr tsw tc].
  destruct m as [sm s0 cp cb th cls sg]. simpl. intro H. run_teardown.
  repeat (split_teardown; simpl in *; try discriminate); reflexivity.
Qed.

(** A teardown that raises: nothing has been changed when the [except]
    clause runs. *)
Lemma disconnect_failed (td : Teardown) (m : Manager) :
  teardown_raises td m = true ->
  exists e : exn,
    disconnect td m = emit (error (exn_message e)) (_set_state ERROR m).
Proof.
  unfold teardown_raises. destruct td as [tr tsw tc].
  destruct m as [sm s0 cp cb th cls sg]. simpl. intro H. run_teardown.
  repeat (split_teardown; simpl in *; try discriminate);
    eexists; reflexivity.
Qed.

(** X18. [connect] with an empty port or an empty baud rate starts no
    worker, leaves the state, the handle and the thread as they are, and
    announces one error: the missing port if the port is empty, the
    missing baud rate otherwise. *)
Theorem connect_rejects_empty_arguments
  (td : Teardown) (port baudrate : string) (m : Manager) :
  Text.truthy port = false \/ Text.truthy baudrate = false ->
  let m' := fst (connect td port baudrate m) in
  snd (connect td port baudrate m) = None
  /\ _state m' = _state m
  /\ serial_manager m' = serial_manager m
  /\ _serial_thread m' = _serial_thread m
  /\ signals m'
     = (signals m
        ++ [error (if Text.truthy port then "No baud rate specified"
                   else "No serial port specified")])%list.
Proof.
  intro H. unfold connect.
  destruct (Text.truthy port); simpl.
  - destruct H as [H | H]; [discriminate|]. rewrite H. simpl. repeat split.
  - repeat split.
Qed.

Lemma connect_rejects_empty_arguments_witness :
  snd (connect quiet_teardown "" "" connected_manager) = None
  /\ _state (fst (connect quiet_teardown "" "" connected_manager)) = CONNECTED
  /\ signals (fst (connect quiet_teardown "COM3" "" (init fresh)))
     = [error "No baud rate specified"].
Proof.
  destruct (connect_rejects_empty_arguments quiet_teardown "" ""
              connected_manager (or_introl eq_refl)) as (H1 & H2 & _).
  destruct (connect_rejects_empty_arguments quiet_teardown "COM3" ""
              (init fresh) (or_intror eq_refl)) as (_ & _ & _ & _ & H5).
  split; [exact H1|]. split; [exact H2 | exact H5].
Defined.

(** X19. A [disconnect] whose teardown does not raise ends in
    Disconnected with the handle closed, forgets the thread, the port and
    the baud rate, and announces the state and then [disconnected]. *)
Theorem disconnect_clears_the_session (td : Teardown) (m : Manager) :
  teardown_raises td m = false ->
  let m' := disconnect td m in
  _state m' = DISCONNECTED
  /\ isOpen (serial_manager m') = false
  /\ _serial_thread m' = None
  /\ _current_port m' = None
  /\ _current_baudrate m' = None
  /\ signals m'
     = (signals m ++ [state_changed DISCONNECTED; disconnected])%list.
Proof.
  intros H m'. subst m'. rewrite (disconnect_clean td m H). simpl.
  rewrite <- app_assoc. repeat split.
Qed.

Lemma disconnect_clears_the_session_witness :
  let m' := disconnect quiet_teardown connected_manager in
  _state m' = DISCONNECTED
  /\ isOpen (serial_manager m') = false
  /\ signals m'
     = (signals connected_manager
        ++ [state_changed DISCONNECTED; disconnected])%list.
Proof.
  intro m'.
  destruct (disconnect_clears_the_session quiet_teardown connected_manager
              eq_refl) as (H1 & H2 & _ & _ & _ & H6).
  split; [exact H1|]. split; [exact H2 | exact H6].
Defined.

(** X20. A [disconnect] whose teardown raises ends in Error and
    announces the state and then the error; the clean-up is skipped: the
    handle, the thread, the port and the baud rate are as before. *)
Theorem failed_disconnect_keeps_the_session (td : Teardown) (m : Manager) :
  teardown_raises td m = true ->
  let m' := disconnect td m in
  _state m' = ERROR
  /\ serial_manager m' = serial_manager m
  /\ _serial_thread m' = _serial_thread m
  /\ _current_port m' = _current_port m
  /\ _current_baudrate m' = _current_baudrate m
  /\ exists message : string,
       signals m'
       = (signals m ++ [state_changed ERROR; error message])%list.
Proof.
  intros H m'. subst m'. destruct (disconnect_failed td m H) as [e ->].
  simpl. repeat split. exists (exn_message e). now rewrite <- app_assoc.
Qed.

Lemma failed_disconnect_keeps_the_session_witness :
  let m' := disconnect failing_teardown connected_manager in
  _state m' = ERROR
  /\ isOpen (serial_manager m') = true
  /\ _current_port m' = Some "COM3".
Proof.
  intro m'. subst m'.
  destruct (failed_disconnect_keeps_the_session failing_teardown
              connected_manager eq_refl) as (H1 & H2 & _ & H4 & _).
  split; [exact H1|]. split; [now rewrite H2 | now rewrite H4].
Defined.

(** X21. After [disconnect], whether or not its teardown raised, the
    manager is not connected, and [current_port] and [current_baudrate]
    are undefined. *)
Theorem disconnect_leaves_unconnected (td : Teardown) (m : Manager) :
  is_connected (disconnect td m) = false
  /\ current_port (disconnect td m) = None
  /\ current_baudrate (disconnect td m) = None.
Proof.
  assert (H : is_connected (disconnect td m) = false).
  { destruct (teardown_raises td m) eqn:E.
    - destruct (disconnect_failed td m E) as [e ->]. reflexivity.
    - rewrite (disconnect_clean td m E). reflexivity. }
  unfold current_port, current_baudrate. rewrite H. repeat split.
Qed.

(** X22. [connect] on a connected manager tears the session down
    first: when neither the teardown nor the worker raises, the manager
    goes through Connected, Disconnected, Connecting, Connected, and
    announces [disconnected] before the new connection. *)
Theorem connect_tears_down_first
  (cfg : Config) (td : Teardown) (a : Attempt) (port baudrate : string)
  (m : Manager) :
  Text.truthy port = true ->
  Text.truthy baudrate = true ->
  is_connected m = true ->
  teardown_raises td m = false ->
  some_step_raises a baudrate (set_thread None m) = false ->
  let m' := connect_and_wait cfg td a port baudrate m in
  signals m'
  = (signals m ++ [state_changed DISCONNECTED; disconnected;
                   state_changed CONNECTING; state_changed CONNECTED;
                   connected port baudrate])%list
  /\ state_sequence m m' = [CONNECTED; DISCONNECTED; CONNECTING; CONNECTED]
  /\ is_connected m' = true
  /\ current_port m' = Some port
  /\ current_baudrate m' = Some baudrate.
Proof.
  intros Hp Hb Hc Htd Hok m'. subst m'. unfold connect_and_wait.
  rewrite (connect_starts_worker td port baudrate m Hp Hb). rewrite Hc.
  rewrite (disconnect_clean td m Htd).
  set (w := _set_state CONNECTING _).
  assert (Hok' : some_step_raises a baudrate w = false) by exact Hok.
  destruct (worker_succeeds cfg a port baudrate w Hok')
    as (Hs & Hsg & Ho & Hcp & Hcb).
  assert (Hst : _state m = CONNECTED).
  { unfold is_connected in Hc. apply andb_true_iff in Hc as [Hc _].
    destruct (_state m); try discriminate. reflexivity. }
  assert (Hsig : signals (_connect_worker cfg a port baudrate w)
                 = (signals m ++ [state_changed DISCONNECTED; disconnected;
                                  state_changed CONNECTING;
                                  state_changed CONNECTED;
                                  connected port baudrate])%list).
  { rewrite Hsg. subst w. simpl. now rewrite <- !app_assoc. }
  assert (Hconn : is_connected (_connect_worker cfg a port baudrate w) = true).
  { unfold is_connected. now rewrite Hs, Ho. }
  unfold state_sequence, current_port, current_baudrate.
  rewrite Hsig, Hst, Hconn, Hcp, Hcb.
  rewrite skipn_app, skipn_all, Nat.sub_diag. simpl. repeat split.
Qed.

Lemma connect_tears_down_first_witness :
  state_sequence connected_manager
    (connect_and_wait sample_config quiet_teardown clean_attempt
       "COM4" "250000" connected_manager)
  = [CONNECTED; DISCONNECTED; CONNECTING; CONNECTED]
  /\ current_port
       (connect_and_wait sample_config quiet_teardown clean_attempt
          "COM4" "250000" connected_manager) = Some "COM4".
Proof.
  destruct (connect_tears_down_first sample_config quiet_teardown
              clean_attempt "COM4" "250000" connected_manager
              eq_refl eq_refl eq_refl eq_refl eq_refl)
    as (_ & H2 & _ & H4 & _).
  split; [exact H2 | exact H4].
Defined.

(** X23. [current_port] and [current_baudrate] are undefined while an
    attempt is in flight, and are the arguments of [connect] once the
    attempt has succeeded. *)
Theorem accessors_follow_the_attempt
  (cfg : Config) (td : Teardown) (a : Attempt) (port baudrate : string)
  (m : Manager) :
  Text.truthy port = true ->
  Text.truthy baudrate = true ->
  _state m = DISCONNECTED ->
  some_step_raises a baudrate m = false ->
  let started := fst (connect td port baudrate m) in
  let m' := connect_and_wait cfg td a port baudrate m in
  state started = CONNECTING
  /\ current_port started = None
  /\ current_baudrate started = None
  /\ current_port m' = Some port
  /\ current_baudrate m' = Some baudrate.
Proof.
  intros Hp Hb Hd Hok started m'. subst started m'.
  unfold connect_and_wait.
  rewrite (connect_starts_worker td port baudrate m Hp Hb). simpl fst.
  assert (Hnc : is_connected m = false)
    by (unfold is_connected; now rewrite Hd).
  rewrite Hnc.
  assert (Hok' : some_step_raises a baudrate (_set_state CONNECTING m) = false)
    by exact Hok.
  destruct (worker_succeeds cfg a port baudrate _ Hok')
    as (Hs & _ & Ho & Hcp & Hcb).
  unfold current_port, current_baudrate, is_connected.
  rewrite Hs, Ho, Hcp, Hcb. repeat split.
Qed.

Lemma accessors_follow_the_attempt_witness :
  current_port (fst (connect quiet_teardown "COM3" "115200" (init fresh)))
  = None
  /\ current_port connected_manager = Some "COM3"
  /\ current_baudrate connected_manager = Some "115200".
Proof.
  destruct (accessors_follow_the_attempt sample_config quiet_teardown
              clean_attempt "COM3" "115200" (init fresh)
              eq_refl eq_refl eq_refl eq_refl)
    as (_ & H2 & _ & H4 & H5).
  split; [exact H2|]. split; [exact H4 | exact H5].
Defined.



(** X26. A teardown that raises does not stop [connect]: on a
    connected manager the error is announced, then Connecting, and the
    worker is started with the port and the baud rate; the handle and
    the thread of the old session are still in place when it starts. *)
Theorem failed_teardown_does_not_stop_connect
  (td : Teardown) (port baudrate : string) (m : Manager) :
  Text.truthy port = true ->
  Text.truthy baudrate = true ->
  is_connected m = true ->
  teardown_raises td m = true ->
  let started := fst (connect td port baudrate m) in
  snd (connect td port baudrate m) = Some (port, baudrate)
  /\ _state started = CONNECTING
  /\ serial_manager started = serial_manager m
  /\ _serial_thread started = _serial_thread m
  /\ exists message : string,
       signals started
       = (signals m ++ [state_changed ERROR; error message;
                        state_changed CONNECTING])%list.
Proof.
  intros Hp Hb Hc Htd started. subst started.
  rewrite (connect_starts_worker td port baudrate m Hp Hb), Hc.
  destruct (disconnect_failed td m Htd) as [e ->]. simpl.
  repeat split. exists (exn_message e). now rewrite <- !app_assoc.
Qed.

Lemma failed_teardown_does_not_stop_connect_witness :
  let started :=
    fst (connect failing_teardown "COM4" "250000" connected_manager) in
  _state started = CONNECTING
  /\ isOpen (serial_manager started) = true.
Proof.
  intro started. subst started.
  destruct (failed_teardown_does_not_stop_connect failing_teardown
              "COM4" "250000" connected_manager
              eq_refl eq_refl eq_refl eq_refl)
    as (_ & H2 & H3 & _).
  split; [exact H2 | now rewrite H3].
Defined.

Lemma announced_states_app (a b : list signal) :
  announced_states (a ++ b)
  = (announced_states a ++ announced_states b)%list.
Proof.
  induction a as [|sg a IH]; [reflexivity|].
  destruct sg; simpl; now rewrite IH.
Qed.

(** A manager whose latest signals end with the announcement of its
    state is in sync, whatever came before. *)
Lemma in_sync_after_announcement
  (m : Manager) (before tail : list signal) :
  signals m = (before ++ state_changed (_state m) :: tail)%list ->
  announced_states tail = [] ->
  in_sync m.
Proof.
  intros Hs Ht. unfold in_sync. rewrite Hs, announced_states_app. simpl.
  rewrite Ht. apply last_last.
Qed.

Lemma in_sync_worker
  (cfg : Config) (a : Attempt) (port baudrate : string) (w : Manager) :
  in_sync (_connect_worker cfg a port baudrate w).
Proof.
  destruct (some_step_raises a baudrate w) eqn:E.
  - destruct (worker_fails cfg a port baudrate w E) as (Hs & e & Hsg).
    apply (in_sync_after_announcement _ (signals w)
             [error (exn_message e)]); [|reflexivity].
    now rewrite Hs, Hsg.
  - destruct (worker_succeeds cfg a port baudrate w E) as (Hs & Hsg & _).
    apply (in_sync_after_announcement _ (signals w)
             [connected port baudrate]); [|reflexivity].
    now rewrite Hs, Hsg.
Qed.

Lemma in_sync_disconnect (td : Teardown) (m : Manager) :
  in_sync (disconnect td m).
Proof.
  destruct (teardown_raises td m) eqn:E.
  - destruct (disconnect_failed td m E) as [e ->].
    apply (in_sync_after_announcement _ (signals m)
             [error (exn_message e)]); [|reflexivity].
    simpl. now rewrite <- app_assoc.
  - rewrite (disconnect_clean td m E).
    apply (in_sync_after_announcement _ (signals m) [disconnected]);
      [|reflexivity].
    simpl. now rewrite <- app_assoc.
Qed.

(** X25. The state never changes without its announcement: when the
    state of a manager is the last one [state_changed] has announced,
    as it is for a new manager, it still is after [connect], after the
    worker it starts, after [disconnect] and after
    [request_position_update]. *)
Theorem announcements_track_the_state
  (cfg : Config) (td : Teardown) (a : Attempt) (port baudrate : string)
  (m : Manager) :
  in_sync m ->
  in_sync (fst (connect td port baudrate m))
  /\ in_sync (connect_and_wait cfg td a port baudrate m)
  /\ in_sync (disconnect td m)
  /\ in_sync (request_position_update m).
Proof.
  intro H.
  assert (Hrej : forall message, in_sync (emit (error message) m)).
  { intro message. unfold in_sync in *. simpl.
    rewrite announced_states_app. simpl. now rewrite app_nil_r. }
  assert (Hstart : forall x, in_sync (_set_state CONNECTING x)).
  { intro x. apply (in_sync_after_announcement _ (signals x) []);
      reflexivity. }
  repeat split.
  - unfold connect. destruct (Text.truthy port); simpl; [|apply Hrej].
    destruct (Text.truthy baudrate); simpl; [apply Hstart | apply Hrej].
  - unfold connect_and_wait, connect.
    destruct (Text.truthy port); simpl; [|apply Hrej].
    destruct (Text.truthy baudrate); simpl; [|apply Hrej].
    apply in_sync_worker.
  - apply in_sync_disconnect.
  - unfold request_position_update.
    destruct (isOpen (serial_manager m)); exact H.
Qed.

Lemma announcements_track_the_state_witness :
  in_sync connected_manager
  /\ in_sync (disconnect failing_teardown connected_manager).
Proof.
  destruct (announcements_track_the_state sample_config quiet_teardown
              clean_attempt "COM3" "115200" (init fresh) eq_refl)
    as (_ & H2 & _).
  destruct (announcements_track_the_state sample_config failing_teardown
              clean_attempt "COM3" "115200" connected_manager H2)
    as (_ & _ & H3 & _).
  split; [exact H2 | exact H3].
Defined.

End LifecycleFacts.
